(** * Upload handlers of the file-storage service

    A shallow embedding of [handler_upload_thumbnail.go] (the thumbnail
    handler) and of the video handler that follows it in the same source
    file, together with the two sub-routines [getVideoAspectRatio] and
    [processVideoForFastStart].

    The handlers are sequences of calls into collaborators (the HTTP and
    MIME libraries, the token library, the metadata store, the local file
    system, the object store, two external media tools).  Every call that
    can fail in Go returns a [Result] here; what a collaborator answers is
    read from an environment [Env], what it changes is recorded in a
    [World] that is passed from step to step. *)

From Stdlib Require Import String Ascii List ZArith NArith Bool Lia.
From Stdlib Require Import Init.Byte.
From stdpp Require Import base option gmap strings list fin_maps.

Import ListNotations.
Local Open Scope string_scope.

(** ** Errors and results *)

(** Go's [error] values are only ever tested against [nil] by the code
    under study; the message is kept for readability. *)
Definition error := string.

Inductive Result (A : Type) : Type :=
| Ok (a : A)
| Err (e : error).
Arguments Ok {A} a.
Arguments Err {A} e.

(** [x, err := e; if err != nil { return h }; k] *)
Notation "'try!' x '<-' e 'or' h ';' k" :=
  (match e with
   | Ok x => k
   | Err _ => h
   end)
  (at level 10, x name, e at level 100, h at level 100, k at level 200,
   format "'[v' 'try!'  x  '<-'  e  'or'  h ';' '/' k ']'").

(** ** encoding/base64 *)

Module base64.

Record Encoding := {
  encode : string;           (* the 64-character alphabet *)
  padChar : option ascii     (* [NoPadding] is [None] *)
}.

Definition encodeURL : string :=
  "ABCDEFGHIJKLMNOPQRSTUVWXYZabcdefghijklmnopqrstuvwxyz0123456789-_".

Definition StdPadding : ascii := "="%char.

Definition URLEncoding : Encoding :=
  {| encode := encodeURL; padChar := Some StdPadding |}.

Definition RawURLEncoding : Encoding :=
  {| encode := encodeURL; padChar := None |}.

(** [enc.encode[i]] *)
Definition sym (enc : Encoding) (i : N) : ascii :=
  match String.get (N.to_nat i) (encode enc) with
  | Some c => c
  | None => Ascii.zero
  end.

Definition u (b : byte) : N := Byte.to_N b.

Definition pad (enc : Encoding) (k : nat) : string :=
  match padChar enc with
  | Some c => string_of_list_ascii (repeat c k)
  | None => ""
  end.

(** [EncodeToString]: whole groups of three bytes give four symbols; a
    remainder of one or two bytes gives two or three symbols and, when
    the encoding pads, the padding character up to four. *)
Fixpoint EncodeToString (enc : Encoding) (src : list byte) : string :=
  match src with
  | [] => ""
  | [b0] =>
      let val := N.shiftl (u b0) 16 in
      String (sym enc (N.land (N.shiftr val 18) 63))
        (String (sym enc (N.land (N.shiftr val 12) 63))
           (pad enc 2))
  | [b0; b1] =>
      let val := N.lor (N.shiftl (u b0) 16) (N.shiftl (u b1) 8) in
      String (sym enc (N.land (N.shiftr val 18) 63))
        (String (sym enc (N.land (N.shiftr val 12) 63))
           (String (sym enc (N.land (N.shiftr val 6) 63))
              (pad enc 1)))
  | b0 :: b1 :: b2 :: rest =>
      let val :=
        N.lor (N.lor (N.shiftl (u b0) 16) (N.shiftl (u b1) 8)) (u b2) in
      String (sym enc (N.land (N.shiftr val 18) 63))
        (String (sym enc (N.land (N.shiftr val 12) 63))
           (String (sym enc (N.land (N.shiftr val 6) 63))
              (String (sym enc (N.land val 63))
                 (EncodeToString enc rest))))
  end.

(** The characters of the URL alphabet: letters, digits, [-] and [_]. *)
Definition url_char (c : ascii) : bool :=
  let n := N_of_ascii c in
  ((65 <=? n) && (n <=? 90) || (97 <=? n) && (n <=? 122)
   || (48 <=? n) && (n <=? 57) || (n =? 45) || (n =? 95))%N.


End base64.

(** ** strings *)

(** [strings.Split(s, sep)] for a separator of one character, which is
    the only use the handlers make of it. *)
Fixpoint strings_Split (s : string) (sep : ascii) : list string :=
  match s with
  | EmptyString => [""]
  | String c rest =>
      if Ascii.eqb c sep then "" :: strings_Split rest sep
      else match strings_Split rest sep with
           | [] => [String c ""]
           | p :: ps => String c p :: ps
           end
  end.


Definition bytes_of_string (s : string) : list byte := list_byte_of_string s.

(** ** Data model *)

(** [uuid.UUID]: a 128-bit value. *)
Definition UUID := N.

(** Modelled from the spec: the video record of the metadata store (type
    [database.Video], declared outside this file): identifier, owning user
    identifier, and the two optional URL fields ([*string] in Go). *)
Record Video := {
  ID : UUID;
  UserID : UUID;
  ThumbnailURL : option string;
  VideoURL : option string
}.

Definition set_ThumbnailURL (v : Video) (url : string) : Video :=
  {| ID := ID v; UserID := UserID v;
     ThumbnailURL := Some url; VideoURL := VideoURL v |}.

Definition set_VideoURL (v : Video) (url : string) : Video :=
  {| ID := ID v; UserID := UserID v;
     ThumbnailURL := ThumbnailURL v; VideoURL := Some url |}.

(** Modelled from the spec: a row of the metadata store.  The identifier
    is the key of the table, the row holds the other fields. *)
Record VideoRow := {
  row_UserID : UUID;
  row_ThumbnailURL : option string;
  row_VideoURL : option string
}.

Definition to_Video (id : UUID) (row : VideoRow) : Video :=
  {| ID := id; UserID := row_UserID row;
     ThumbnailURL := row_ThumbnailURL row; VideoURL := row_VideoURL row |}.

Definition to_row (v : Video) : VideoRow :=
  {| row_UserID := UserID v;
     row_ThumbnailURL := ThumbnailURL v; row_VideoURL := VideoURL v |}.

(** Modelled from the spec: the process-wide configuration [apiConfig]
    (declared outside this file): signing secret, storage root, service
    port, bucket name and distribution base.  The handles [cfg.db] and
    [cfg.s3Client] are the [db] and [s3] components of the [World]. *)
Record apiConfig := {
  jwtSecret : string;
  assetsRoot : string;
  port : string;
  s3Bucket : string;
  s3CfDistribution : string
}.

(** [textproto.MIMEHeader] / [http.Header]: canonical key to values. *)
Abbreviation MIMEHeader := (gmap string (list string)).

Definition Header_Get (h : MIMEHeader) (key : string) : string :=
  match h !! key with
  | Some (v :: _) => v
  | _ => ""
  end.

(** [multipart.FileHeader]; [fh_content] is what reading the opened part
    yields. *)
Record FileHeader := {
  Filename : string;
  fh_Header : MIMEHeader;
  fh_content : list byte
}.

(** [multipart.Form.File] *)
Abbreviation Form := (gmap string (list FileHeader)).

(** A request body: the bytes on the wire and the cap, if any, that a
    [http.MaxBytesReader] wrapped around it enforces. *)
Record Reader := {
  rd_data : list byte;
  rd_limit : option N
}.

Record Request := {
  PathValue : string -> string;
  Header : MIMEHeader;
  Body : Reader;
  MultipartForm : option Form
}.

Definition set_MultipartForm (r : Request) (f : Form) : Request :=
  {| PathValue := PathValue r; Header := Header r; Body := Body r;
     MultipartForm := Some f |}.

Definition set_Body (r : Request) (b : Reader) : Request :=
  {| PathValue := PathValue r; Header := Header r; Body := b;
     MultipartForm := MultipartForm r |}.

(** Modelled from the spec: what [respondWithError] and [respondWithJSON]
    (declared outside this file) send: a status and a JSON body, which is
    an error message, the empty object, or a video record. *)
Inductive Payload :=
| PError (msg : string)
| PEmpty
| PVideo (v : Video).

Record Response := {
  status : Z;
  payload : Payload
}.

Definition StatusOK : Z := 200.
Definition StatusBadRequest : Z := 400.
Definition StatusUnauthorized : Z := 401.
Definition StatusInternalServerError : Z := 500.

Definition respondWithError (code : Z) (msg : string) : Response :=
  {| status := code; payload := PError msg |}.

Definition respondWithJSON (code : Z) (p : Payload) : Response :=
  {| status := code; payload := p |}.

(** An object of the bucket. *)
Record S3Object := {
  o_Body : list byte;
  o_ContentType : string
}.

(** What the handlers can change: the metadata store, the local file
    system, the bucket (keyed by bucket name and key), and the external
    commands run so far, oldest first.  [fs] holds the files that the
    handlers and the tools name: the assets, the temporary file of the
    video handler and the output of the remux.  The temporary files
    [multipart-*] that the multipart reader keeps for the parts of a
    request that do not fit in memory, and that go away with the form,
    are not in [fs]. *)
Record World := {
  db : gmap N VideoRow;
  fs : gmap string (list byte);
  s3 : gmap (string * string) S3Object;
  cmds : list (string * list string)
}.

Definition set_db (w : World) (d : gmap N VideoRow) : World :=
  {| db := d; fs := fs w; s3 := s3 w; cmds := cmds w |}.

Definition set_fs (w : World) (f : gmap string (list byte)) : World :=
  {| db := db w; fs := f; s3 := s3 w; cmds := cmds w |}.

Definition set_s3 (w : World) (o : gmap (string * string) S3Object) : World :=
  {| db := db w; fs := fs w; s3 := o; cmds := cmds w |}.

Definition log_cmd (w : World) (c : string * list string) : World :=
  {| db := db w; fs := fs w; s3 := s3 w; cmds := cmds w ++ [c] |}.

(** The element of the [streams] array of the probe's JSON output, as the
    document has it: each member may be absent. *)
Record RawStream := {
  js_width : option Z;
  js_height : option Z;
  js_display_aspect_ratio : option string
}.

(** The anonymous struct [getVideoAspectRatio] decodes into. *)
Record Stream := {
  Width : Z;
  Height : Z;
  DisplayAspectRatio : string
}.

(** [encoding/json] leaves the zero value in a field whose member is
    absent from the document. *)
Definition decode_stream (s : RawStream) : Stream :=
  {| Width := default 0%Z (js_width s);
     Height := default 0%Z (js_height s);
     DisplayAspectRatio := default "" (js_display_aspect_ratio s) |}.

(** What running an external command does: its exit status (a process
    that could not be started counts as a non-zero status, as in
    [ProcessState.ExitCode]), its standard output, and the file system it
    leaves. *)
Record ExecOutcome := {
  exit_code : Z;
  stdout : string;
  fs_after : gmap string (list byte)
}.

(** ** The environment of one request

    The answers of the collaborators.  Library functions are functions of
    their arguments; the system calls that can fail for reasons outside
    the program (a full disk, an unreachable store) have a flag each. *)
Record Env := {
  uuid_Parse : string -> Result UUID;
  auth_GetBearerToken : MIMEHeader -> Result string;
  auth_ValidateJWT : string -> string -> Result UUID;
  mime_ParseMediaType : string -> Result string;
  (* [r.ParseForm()], whose error [ParseMultipartForm] hands back even
     when the multipart body itself was decoded *)
  http_ParseForm : MIMEHeader -> option error;
  (* the multipart decoder, from the header and the bytes of the body *)
  multipart_ReadForm : MIMEHeader -> list byte -> N -> Result Form;
  json_Unmarshal : string -> Result (list RawStream);
  exec : string -> list string -> gmap string (list byte) -> ExecOutcome;
  (* [crypto/rand] *)
  rand_source : nat -> byte;
  rand_fails : bool;
  (* [os.TempDir()] and the random suffix [os.CreateTemp] picks *)
  TempDir : string;
  temp_suffix : string;
  (* faults *)
  Open_fails : bool;
  ReadAll_fails : bool;
  GetVideo_fails : bool;
  UpdateVideo_fails : bool;
  Create_fails : bool;
  (* [Some k]: the copy into the assets file stops after [k] bytes *)
  Copy_assets_short : option nat;
  CreateTemp_fails : bool;
  Copy_temp_short : option nat;
  OpenFile_fails : bool;
  PutObject_fails : bool
}.

(** ** The collaborators' operations *)

Section Collaborators.

Variable env : Env.

(** [http.MaxBytesReader(w, rd, n)]: a reader over the same bytes that
    fails once more than [n] of them are asked for.  It returns the new
    reader and leaves [rd] as it was. *)
Definition http_MaxBytesReader (rd : Reader) (n : N) : Reader :=
  {| rd_data := rd_data rd;
     rd_limit := Some (match rd_limit rd with
                       | Some m => N.min m n
                       | None => n
                       end) |}.

(** Reading a body to its end. *)
Definition Body_ReadAll (rd : Reader) : Result (list byte) :=
  match rd_limit rd with
  | Some n =>
      if (N.of_nat (length (rd_data rd)) <=? n)%N then Ok (rd_data rd)
      else Err "http: request body too large"
  | None => Ok (rd_data rd)
  end.

Definition defaultMaxMemory : N := N.shiftl 32 20.

(** [r.ParseMultipartForm(maxMemory)]: decodes the body once and keeps
    the form in the request.  Where the reader keeps the content of a
    part (in memory, or past [maxMemory] in a temporary file of its own)
    is not modelled: [fh_content] is the content either way, and such a
    temporary file is not in [fs]. *)
Definition ParseMultipartForm (r : Request) (maxMemory : N)
  : Request * option error :=
  let parseFormErr := http_ParseForm env (Header r) in
  match MultipartForm r with
  | Some _ => (r, None)
  | None =>
      match Body_ReadAll (Body r) with
      | Err e => (r, Some e)
      | Ok bytes =>
          match multipart_ReadForm env (Header r) bytes maxMemory with
          | Err e => (r, Some e)
          | Ok f => (set_MultipartForm r f, parseFormErr)
          end
      end
  end.

(** [r.FormFile(key)]: parses the form if no one has, then opens the
    first file sent under [key].  As for [ParseMultipartForm], the
    reader's own temporary files are not in [fs]. *)
Definition FormFile (r : Request) (key : string) : Result FileHeader :=
  let '(r, perr) :=
    match MultipartForm r with
    | None => ParseMultipartForm r defaultMaxMemory
    | Some _ => (r, None)
    end in
  match perr with
  | Some e => Err e
  | None =>
      match MultipartForm r with
      | Some f =>
          match f !! key with
          | Some (fh :: _) =>
              if Open_fails env then Err "open" else Ok fh
          | _ => Err "http: no such file"
          end
      | None => Err "http: no such file"
      end
  end.

(** [io.ReadAll(file)] on an opened part *)
Definition File_ReadAll (fh : FileHeader) : Result (list byte) :=
  if ReadAll_fails env then Err "read" else Ok (fh_content fh).

(** Modelled from the spec: [cfg.db.GetVideo] (the metadata store client
    is outside this file): reads the record with this identifier. *)
Definition GetVideo (w : World) (id : UUID) : Result Video :=
  if GetVideo_fails env then Err "store unavailable"
  else match db w !! id with
       | Some row => Ok (to_Video id row)
       | None => Err "sql: no rows in result set"
       end.

(** Modelled from the spec: [cfg.db.UpdateVideo] (outside this file):
    overwrites the record that has the identifier of [v]; a failed
    update leaves the store as it was. *)
Definition UpdateVideo (v : Video) (w : World) : Result unit * World :=
  if UpdateVideo_fails env then (Err "store unavailable", w)
  else match db w !! ID v with
       | Some _ => (Ok tt, set_db w (<[ID v := to_row v]> (db w)))
       | None => (Ok tt, w)
       end.

(** [b := make([]byte, n); rand.Read(b)] *)
Definition rand_Read (n : nat) : Result (list byte) :=
  if rand_fails env then Err "rand" else Ok (map (rand_source env) (seq 0 n)).

(** [filepath.Join(dir, name)] without the cleaning of the result: the
    path is the one the handler names, and for a [dir] such as
    [./assets] it is the same file as the cleaned [assets/name]. *)
Definition filepath_Join (dir name : string) : string :=
  if dir =? "" then name else dir ++ "/" ++ name.

(** [os.Create(path)]: the file exists and is empty afterwards. *)
Definition os_Create (path : string) (w : World) : Result string * World :=
  if Create_fails env then (Err "create", w)
  else (Ok path, set_fs w (<[path := []]> (fs w))).

(** [os.CreateTemp(dir, pattern)] for a pattern without [*] *)
Definition os_CreateTemp (dir pattern : string) (w : World)
  : Result string * World :=
  let dir := if dir =? "" then TempDir env else dir in
  let name := dir ++ "/" ++ pattern ++ temp_suffix env in
  if CreateTemp_fails env then (Err "create temp", w)
  else (Ok name, set_fs w (<[name := []]> (fs w))).

Definition write_file (path : string) (bytes : list byte) (w : World) : World :=
  set_fs w (<[path := (default [] (fs w !! path) ++ bytes)%list]> (fs w)).

(** [io.Copy(dst, src)] into the file at [dst]: everything, or, when the
    copy is cut short after [k] bytes, those and an error. *)
Definition io_Copy (short : option nat) (dst : string) (src : list byte)
    (w : World) : Result nat * World :=
  match short with
  | Some k => (Err "short write", write_file dst (firstn k src) w)
  | None => (Ok (length src), write_file dst src w)
  end.

Definition os_Remove (path : string) (w : World) : World :=
  set_fs w (delete path (fs w)).

(** [os.OpenFile(name, os.O_RDONLY, 0666)]; the handle is modelled by
    the content read through it. *)
Definition os_OpenFile (name : string) (w : World) : Result (list byte) :=
  if OpenFile_fails env then Err "open"
  else match fs w !! name with
       | Some c => Ok c
       | None => Err "no such file or directory"
       end.

(** [cfg.s3Client.PutObject] *)
Definition PutObject (bucket key : string) (body : list byte)
    (contentType : string) (w : World) : Result unit * World :=
  if PutObject_fails env then (Err "put object", w)
  else (Ok tt,
        set_s3 w (<[(bucket, key) :=
                      {| o_Body := body; o_ContentType := contentType |}]>
                    (s3 w))).

(** [exec.Command(name, args...).Run()] with the standard output
    collected: [nil] exactly when the exit status is zero. *)
Definition exec_Run (name : string) (args : list string) (w : World)
  : Result string * World :=
  let o := exec env name args (fs w) in
  let w := log_cmd (set_fs w (fs_after o)) (name, args) in
  if (exit_code o =? 0)%Z then (Ok (stdout o), w)
  else (Err "exit status", w).

(** A [defer]red clean-up runs on the world every return leaves. *)
Definition defer (cleanup : World -> World) (res : Response * World)
  : Response * World :=
  (fst res, cleanup (snd res)).

End Collaborators.

(** ** The thumbnail handler *)

Definition handlerUploadThumbnail (cfg : apiConfig) (env : Env)
    (r : Request) (w : World) : Response * World :=
  let videoIDString := PathValue r "videoID" in
  try! videoID <- uuid_Parse env videoIDString
    or (respondWithError StatusBadRequest "Invalid ID", w);
  try! token <- auth_GetBearerToken env (Header r)
    or (respondWithError StatusUnauthorized "Couldn't find JWT", w);
  try! userID <- auth_ValidateJWT env token (jwtSecret cfg)
    or (respondWithError StatusUnauthorized "Couldn't validate JWT", w);
  let maxMemory := N.shiftl 10 20 in
  (* the error of the parse is not looked at *)
  let '(r, _) := ParseMultipartForm env r maxMemory in
  try! header <- FormFile env r "thumbnail"
    or (respondWithError StatusBadRequest "Unable to parse form file", w);
  let ContentType := Header_Get (fh_Header header) "Content-Type" in
  try! data <- File_ReadAll env header
    or (respondWithError StatusInternalServerError "Couldn't read file", w);
  try! VideoMeta <- GetVideo env w videoID
    or (respondWithError StatusInternalServerError "Couldn't get video", w);
  if negb (UserID VideoMeta =? userID)%N then
    (respondWithError StatusUnauthorized "Not your video", w)
  else
  try! mediaType <- mime_ParseMediaType env ContentType
    or (respondWithError StatusBadRequest "Invalid media type", w);
  if negb (mediaType =? "image/jpeg") && negb (mediaType =? "image/png") then
    (respondWithError StatusBadRequest "Invalid media type", w)
  else
  let parts := strings_Split mediaType "/" in
  if negb (length parts =? 2)%nat then
    (respondWithError StatusBadRequest "Invalid media type", w)
  else
  let extension := nth 1 parts "" in
  try! randomBytes <- rand_Read env 32
    or (respondWithError StatusInternalServerError
          "Couldn't generate random bytes", w);
  let name := base64.EncodeToString base64.RawURLEncoding randomBytes in
  let fileName := name ++ "." ++ extension in
  let filePath := filepath_Join (assetsRoot cfg) fileName in
  match os_Create env filePath w with
  | (Err _, w) =>
      (respondWithError StatusInternalServerError "Couldn't create file", w)
  | (Ok filePoint, w) =>
      (* neither the count nor the error of the copy is looked at *)
      let '(_, w) := io_Copy (Copy_assets_short env) filePoint data w in
      let thumbnailURL :=
        "http://localhost:" ++ port cfg ++ "/assets/" ++ fileName in
      let VideoMeta := set_ThumbnailURL VideoMeta thumbnailURL in
      match UpdateVideo env VideoMeta w with
      | (Err _, w) =>
          (respondWithError StatusInternalServerError "Couldn't update video", w)
      | (Ok _, w) => (respondWithJSON StatusOK PEmpty, w)
      end
  end.

(** ** The sub-routines of the video handler *)

(** [getVideoAspectRatio]: runs the probe, decodes its output, and gives
    the display aspect ratio of the first stream. *)
Definition getVideoAspectRatio (env : Env) (filePath : string) (w : World)
  : Result string * World :=
  match exec_Run env "ffprobe"
          ["-v"; "error"; "-print_format"; "json"; "-show_streams"; filePath] w
  with
  | (Err e, w) => (Err e, w)
  | (Ok out, w) =>
      match json_Unmarshal env out with
      | Err e => (Err e, w)
      | Ok raw =>
          let Streams := map decode_stream raw in
          if (length Streams =? 0)%nat then (Err "No streams found", w)
          else
            (Ok (DisplayAspectRatio
                   (nth 0 Streams
                      {| Width := 0; Height := 0; DisplayAspectRatio := "" |})),
             w)
      end
  end.

(** [processVideoForFastStart]: remuxes [filePath] into
    [filePath + ".processing"]. *)
Definition processVideoForFastStart (env : Env) (filePath : string) (w : World)
  : Result string * World :=
  let tmpName := filePath ++ ".processing" in
  match exec_Run env "ffmpeg"
          ["-i"; filePath; "-c"; "copy"; "-movflags"; "faststart";
           "-f"; "mp4"; tmpName] w
  with
  | (Err e, w) => (Err e, w)
  | (Ok _, w) => (Ok tmpName, w)
  end.

(** The choice of the storage prefix in [handlerUploadVideo]: the
    initial value ["other"] and the [switch] on the aspect ratio. *)
Definition choosePrefix (aspectRation : string) : string :=
  let prefix := "other" in
  if aspectRation =? "16:9" then "landscape"
  else if aspectRation =? "9:16" then "portrait"
  else prefix.

(** ** The video handler *)

Definition handlerUploadVideo (cfg : apiConfig) (env : Env)
    (r : Request) (w : World) : Response * World :=
  (* the capped reader is built and dropped: [r.Body] is not assigned *)
  let _ := http_MaxBytesReader (Body r) (N.shiftl 1 30) in
  let videoIDString := PathValue r "videoID" in
  try! videoID <- uuid_Parse env videoIDString
    or (respondWithError StatusBadRequest "Invalid ID", w);
  try! token <- auth_GetBearerToken env (Header r)
    or (respondWithError StatusUnauthorized "Couldn't find JWT", w);
  try! userID <- auth_ValidateJWT env token (jwtSecret cfg)
    or (respondWithError StatusUnauthorized "Couldn't validate JWT", w);
  try! videoDb <- GetVideo env w videoID
    or (respondWithError StatusInternalServerError "Couldn't get video", w);
  if negb (UserID videoDb =? userID)%N then
    (respondWithError StatusUnauthorized "User does not own video", w)
  else
  try! header <- FormFile env r "video"
    or (respondWithError StatusBadRequest "Unable to parse form file", w);
  try! mediaType <-
      mime_ParseMediaType env (Header_Get (fh_Header header) "Content-Type")
    or (respondWithError StatusBadRequest "Invalid media type", w);
  if negb (mediaType =? "video/mp4") then
    (respondWithError StatusBadRequest "Invalid media type", w)
  else
  match os_CreateTemp env "" "video.mp4" w with
  | (Err _, w) =>
      (respondWithError StatusInternalServerError "Couldn't create temp file", w)
  | (Ok tmpFile, w) =>
    defer (os_Remove tmpFile)
    match io_Copy (Copy_temp_short env) tmpFile (fh_content header) w with
    | (Err _, w) =>
        (respondWithError StatusInternalServerError "Couldn't save file", w)
    | (Ok _, w) =>
      (* [tmpFile.Seek(0, io.SeekStart)]: the later steps go through the
         name of the file, not through this handle *)
      match getVideoAspectRatio env tmpFile w with
      | (Err _, w) =>
          (respondWithError StatusInternalServerError
             "Couldn't get video aspect ratio", w)
      | (Ok aspectRation, w) =>
        let prefix := choosePrefix aspectRation in
        match processVideoForFastStart env tmpFile w with
        | (Err _, w) =>
            (respondWithError StatusInternalServerError
               "Couldn't process video", w)
        | (Ok processedFileName, w) =>
          defer (os_Remove processedFileName)
          (try! processedFile <- os_OpenFile env processedFileName w
             or (respondWithError StatusInternalServerError
                   "Couldn't process video", w);
           try! randomBites <- rand_Read env 32
             or (respondWithError StatusInternalServerError
                   "Couldn't generate random bytes", w);
           let name := base64.EncodeToString base64.URLEncoding randomBites in
           let fileName := prefix ++ "/" ++ name ++ ".mp4" in
           match PutObject env (s3Bucket cfg) fileName processedFile mediaType w
           with
           | (Err _, w) =>
               (respondWithError StatusInternalServerError
                  "Couldn't upload file to S3", w)
           | (Ok _, w) =>
               let videoUrl := s3CfDistribution cfg ++ "/" ++ fileName in
               let videoDb := set_VideoURL videoDb videoUrl in
               match UpdateVideo env videoDb w with
               | (Err _, w) =>
                   (respondWithError StatusInternalServerError
                      "Couldn't update video", w)
               | (Ok _, w) => (respondWithJSON StatusOK (PVideo videoDb), w)
               end
           end)
        end
      end
    end
  end.

(** ** A concrete service, for running the handlers *)

Module Demo.

Definition cfg : apiConfig :=
  {| jwtSecret := "s3cr3t";
     assetsRoot := "./assets";
     port := "8091";
     s3Bucket := "tubely-videos";
     s3CfDistribution := "https://d1234.cloudfront.net" |}.

Definition alice : UUID := 7%N.
Definition bob : UUID := 8%N.
Definition vid : UUID := 1%N.

Definition video0 : VideoRow :=
  {| row_UserID := alice; row_ThumbnailURL := None; row_VideoURL := None |}.

Definition world0 : World :=
  {| db := {[ vid := video0 ]}; fs := ∅; s3 := ∅; cmds := [] |}.

(** One request and what happens around it: the uploaded part (form
    field, file name, declared type, bytes), whether the write to the
    assets directory is cut short, whether [ParseForm] complains, and
    the streams the probe reports. *)
Record Scenario := {
  sc_field : string;
  sc_filename : string;
  sc_type : string;
  sc_bytes : list byte;
  sc_disk_short : option nat;
  sc_form_err : option error;
  sc_probe : list RawStream
}.

Definition stream (w h : Z) (dar : option string) : RawStream :=
  {| js_width := Some w; js_height := Some h;
     js_display_aspect_ratio := dar |}.

(** An audio stream: no geometry at all. *)
Definition audio : RawStream :=
  {| js_width := None; js_height := None;
     js_display_aspect_ratio := None |}.

(** The probe always exits with status zero; the remuxer copies its
    input (second argument) to its output (last argument). *)
Definition tools (name : string) (args : list string)
    (f : gmap string (list byte)) : ExecOutcome :=
  if name =? "ffprobe" then
    {| exit_code := 0; stdout := "{}"; fs_after := f |}
  else
    match f !! nth 1 args "" with
    | Some c => {| exit_code := 0; stdout := "";
                   fs_after := <[List.last args "" := c]> f |}
    | None => {| exit_code := 1; stdout := ""; fs_after := f |}
    end.

Definition env (sc : Scenario) : Env :=
  {| uuid_Parse := fun s =>
       if s =? "00000000-0000-0000-0000-000000000001" then Ok vid
       else Err "invalid UUID";
     auth_GetBearerToken := fun h =>
       match h !! "Authorization" with
       | Some (String "B" (String "e" (String "a" (String "r"
             (String "e" (String "r" (String " " t)))))) :: _) => Ok t
       | _ => Err "no auth header included in request"
       end;
     auth_ValidateJWT := fun t _ =>
       if t =? "alice" then Ok alice
       else if t =? "bob" then Ok bob
       else Err "invalid token";
     mime_ParseMediaType := fun s =>
       if s =? "" then Err "mime: no media type" else Ok s;
     http_ParseForm := fun _ => sc_form_err sc;
     multipart_ReadForm := fun _ bytes _ =>
       Ok {[ sc_field sc :=
               [ {| Filename := sc_filename sc;
                    fh_Header := {[ "Content-Type" := [sc_type sc] ]};
                    fh_content := bytes |} ] ]};
     json_Unmarshal := fun _ => Ok (sc_probe sc);
     exec := tools;
     rand_source := fun i =>
       default x00 (Byte.of_N (N.of_nat (37 * i + 11) mod 256));
     rand_fails := false;
     TempDir := "/tmp";
     temp_suffix := "2750139";
     Open_fails := false;
     ReadAll_fails := false;
     GetVideo_fails := false;
     UpdateVideo_fails := false;
     Create_fails := false;
     Copy_assets_short := sc_disk_short sc;
     CreateTemp_fails := false;
     Copy_temp_short := None;
     OpenFile_fails := false;
     PutObject_fails := false |}.

Definition request (token : string) (sc : Scenario) : Request :=
  {| PathValue := fun k =>
       if k =? "videoID" then "00000000-0000-0000-0000-000000000001" else "";
     Header := {[ "Authorization" := ["Bearer " ++ token] ]};
     Body := {| rd_data := sc_bytes sc; rd_limit := None |};
     MultipartForm := None |}.

Definition thumbnail (type : string) (short : option nat)
    (form_err : option error) : Scenario :=
  {| sc_field := "thumbnail"; sc_filename := "../../etc/passwd";
     sc_type := type; sc_bytes := bytes_of_string "PNG-bytes";
     sc_disk_short := short; sc_form_err := form_err; sc_probe := [] |}.

Definition video (type : string) (content : list byte)
    (probe : list RawStream) : Scenario :=
  {| sc_field := "video"; sc_filename := "holiday.mp4";
     sc_type := type; sc_bytes := content;
     sc_disk_short := None; sc_form_err := None; sc_probe := probe |}.

(** The part the decoder hands to [FormFile]. *)
Definition part (sc : Scenario) : FileHeader :=
  {| Filename := sc_filename sc;
     fh_Header := {[ "Content-Type" := [sc_type sc] ]};
     fh_content := sc_bytes sc |}.

Definition run_thumbnail (token : string) (sc : Scenario) : Response * World :=
  handlerUploadThumbnail cfg (env sc) (request token sc) world0.

Definition run_video (token : string) (sc : Scenario) : Response * World :=
  handlerUploadVideo cfg (env sc) (request token sc) world0.

End Demo.

(** ** Notions the properties are stated with *)


(** What a copy leaves in a file that was just created. *)
Definition copied (short : option nat) (src : list byte) : list byte :=
  match short with
  | Some k => firstn k src
  | None => src
  end.

(** The name [os.CreateTemp] gives the temporary file of the video
    handler. *)
Definition tmpName (env : Env) : string :=
  TempDir env ++ "/" ++ "video.mp4" ++ temp_suffix env.

(** The arguments the two tools are run with. *)
Definition ffprobe_cmd (filePath : string) : string * list string :=
  ("ffprobe",
   ["-v"; "error"; "-print_format"; "json"; "-show_streams"; filePath]).

Definition ffmpeg_cmd (filePath : string) : string * list string :=
  ("ffmpeg",
   ["-i"; filePath; "-c"; "copy"; "-movflags"; "faststart"; "-f"; "mp4";
    filePath ++ ".processing"]).

(** The world in which the video handler runs the probe: the part has
    been copied to the temporary file. *)
Definition copied_to_tmp (env : Env) (w : World) (header : FileHeader) : World :=
  set_fs w (<[tmpName env := fh_content header]> (fs w)).

(** What the probe does when the video handler runs it on the part. *)
Definition probe_outcome (env : Env) (w : World) (header : FileHeader)
  : ExecOutcome :=
  exec env "ffprobe" (snd (ffprobe_cmd (tmpName env)))
    (fs (copied_to_tmp env w header)).

(** The part the thumbnail handler reads its upload from: [FormFile] on
    the request that the handler's own [ParseMultipartForm] leaves. *)
Definition thumbnail_part (env : Env) (r : Request) : Result FileHeader :=
  FormFile env (fst (ParseMultipartForm env r (N.shiftl 10 20))) "thumbnail".

(** The content type a part declares. *)
Definition declared_type (header : FileHeader) : string :=
  Header_Get (fh_Header header) "Content-Type".

(** Whether a declared content type parses to one of these media types. *)
Definition media_type_among (env : Env) (allowed : list string)
    (contentType : string) : bool :=
  match mime_ParseMediaType env contentType with
  | Ok mediaType => existsb (String.eqb mediaType) allowed
  | Err _ => false
  end.

(** The 32 bytes a request draws from the random source. *)
Definition drawn (env : Env) : list byte := map (rand_source env) (seq 0 32).

(** The classification as the specification words it. *)
Inductive spec_prefix : string -> string -> Prop :=
| spec_landscape : spec_prefix "16:9" "landscape"
| spec_portrait : spec_prefix "9:16" "portrait"
| spec_other (dar : string) :
    dar <> "16:9" -> dar <> "9:16" -> dar <> "" -> spec_prefix dar "other".





(** The string values of the configuration. *)
Definition config_values (cfg : apiConfig) : list string :=
  [jwtSecret cfg; assetsRoot cfg; port cfg; s3Bucket cfg; s3CfDistribution cfg].

(** The video handler as it would be with the capped reader put in place
    of the body ([r.Body = http.MaxBytesReader(w, r.Body, 1<<30)]). *)
Definition handlerUploadVideo_capped (cfg : apiConfig) (env : Env)
    (r : Request) (w : World) : Response * World :=
  handlerUploadVideo cfg env
    (set_Body r (http_MaxBytesReader (Body r) (N.shiftl 1 30))) w.

(** The names the handlers generate from the bytes drawn: the file name
    of a thumbnail with extension [ext], and the key of a video under
    [prefix]. *)
Definition thumbnail_fileName (env : Env) (ext : string) : string :=
  base64.EncodeToString base64.RawURLEncoding (drawn env) ++ "." ++ ext.

Definition video_key (env : Env) (prefix : string) : string :=
  prefix ++ "/" ++ base64.EncodeToString base64.URLEncoding (drawn env)
  ++ ".mp4".

(** The three prefixes of the bucket. *)
Definition prefixes : list string := ["landscape"; "portrait"; "other"].

(** Whether a response body is an error message. *)
Definition is_error (p : Payload) : bool :=
  match p with
  | PError _ => true
  | _ => false
  end.

(** A response that turns a request down: an error message under one of
    the three error statuses, and not the message of the update of the
    store, which is the last step. *)
Definition rejection (resp : Response) : Prop :=
  is_error (payload resp) = true
  /\ In (status resp)
       [StatusBadRequest; StatusUnauthorized; StatusInternalServerError]
  /\ payload resp <> PError "Couldn't update video".

(** The statuses the handlers answer with. *)
Definition statuses : list Z :=
  [StatusOK; StatusBadRequest; StatusUnauthorized; StatusInternalServerError].

(** The same configuration as far as the thumbnail handler, and as far as
    the video handler, reads it. *)
Definition same_for_thumbnail (c1 c2 : apiConfig) : Prop :=
  jwtSecret c1 = jwtSecret c2 /\ assetsRoot c1 = assetsRoot c2
  /\ port c1 = port c2.

Definition same_for_video (c1 c2 : apiConfig) : Prop :=
  jwtSecret c1 = jwtSecret c2 /\ s3Bucket c1 = s3Bucket c2
  /\ s3CfDistribution c1 = s3CfDistribution c2.

(** An environment with other tools and another decoder of the probe's
    output. *)
Definition with_tools (env : Env)
    (tools : string -> list string -> gmap string (list byte) -> ExecOutcome)
    (decode : string -> Result (list RawStream)) : Env :=
  {| uuid_Parse := uuid_Parse env;
     auth_GetBearerToken := auth_GetBearerToken env;
     auth_ValidateJWT := auth_ValidateJWT env;
     mime_ParseMediaType := mime_ParseMediaType env;
     http_ParseForm := http_ParseForm env;
     multipart_ReadForm := multipart_ReadForm env;
     json_Unmarshal := decode;
     exec := tools;
     rand_source := rand_source env;
     rand_fails := rand_fails env;
     TempDir := TempDir env;
     temp_suffix := temp_suffix env;
     Open_fails := Open_fails env;
     ReadAll_fails := ReadAll_fails env;
     GetVideo_fails := GetVideo_fails env;
     UpdateVideo_fails := UpdateVideo_fails env;
     Create_fails := Create_fails env;
     Copy_assets_short := Copy_assets_short env;
     CreateTemp_fails := CreateTemp_fails env;
     Copy_temp_short := Copy_temp_short env;
     OpenFile_fails := OpenFile_fails env;
     PutObject_fails := PutObject_fails env |}.

(** An environment with another random source. *)
Definition with_rand (env : Env) (source : nat -> byte) : Env :=
  {| uuid_Parse := uuid_Parse env;
     auth_GetBearerToken := auth_GetBearerToken env;
     auth_ValidateJWT := auth_ValidateJWT env;
     mime_ParseMediaType := mime_ParseMediaType env;
     http_ParseForm := http_ParseForm env;
     multipart_ReadForm := multipart_ReadForm env;
     json_Unmarshal := json_Unmarshal env;
     exec := exec env;
     rand_source := source;
     rand_fails := rand_fails env;
     TempDir := TempDir env;
     temp_suffix := temp_suffix env;
     Open_fails := Open_fails env;
     ReadAll_fails := ReadAll_fails env;
     GetVideo_fails := GetVideo_fails env;
     UpdateVideo_fails := UpdateVideo_fails env;
     Create_fails := Create_fails env;
     Copy_assets_short := Copy_assets_short env;
     CreateTemp_fails := CreateTemp_fails env;
     Copy_temp_short := Copy_temp_short env;
     OpenFile_fails := OpenFile_fails env;
     PutObject_fails := PutObject_fails env |}.

(** An environment whose store refuses updates. *)
Definition with_store_down (env : Env) : Env :=
  {| uuid_Parse := uuid_Parse env;
     auth_GetBearerToken := auth_GetBearerToken env;
     auth_ValidateJWT := auth_ValidateJWT env;
     mime_ParseMediaType := mime_ParseMediaType env;
     http_ParseForm := http_ParseForm env;
     multipart_ReadForm := multipart_ReadForm env;
     json_Unmarshal := json_Unmarshal env;
     exec := exec env;
     rand_source := rand_source env;
     rand_fails := rand_fails env;
     TempDir := TempDir env;
     temp_suffix := temp_suffix env;
     Open_fails := Open_fails env;
     ReadAll_fails := ReadAll_fails env;
     GetVideo_fails := GetVideo_fails env;
     UpdateVideo_fails := true;
     Create_fails := Create_fails env;
     Copy_assets_short := Copy_assets_short env;
     CreateTemp_fails := CreateTemp_fails env;
     Copy_temp_short := Copy_temp_short env;
     OpenFile_fails := OpenFile_fails env;
     PutObject_fails := PutObject_fails env |}.

(** An environment in which no temporary file can be created. *)
Definition with_temp_down (env : Env) : Env :=
  {| uuid_Parse := uuid_Parse env;
     auth_GetBearerToken := auth_GetBearerToken env;
     auth_ValidateJWT := auth_ValidateJWT env;
     mime_ParseMediaType := mime_ParseMediaType env;
     http_ParseForm := http_ParseForm env;
     multipart_ReadForm := multipart_ReadForm env;
     json_Unmarshal := json_Unmarshal env;
     exec := exec env;
     rand_source := rand_source env;
     rand_fails := rand_fails env;
     TempDir := TempDir env;
     temp_suffix := temp_suffix env;
     Open_fails := Open_fails env;
     ReadAll_fails := ReadAll_fails env;
     GetVideo_fails := GetVideo_fails env;
     UpdateVideo_fails := UpdateVideo_fails env;
     Create_fails := Create_fails env;
     Copy_assets_short := Copy_assets_short env;
     CreateTemp_fails := true;
     Copy_temp_short := Copy_temp_short env;
     OpenFile_fails := OpenFile_fails env;
     PutObject_fails := PutObject_fails env |}.

(** Tools that go wrong, for running the video handler. *)
Module Faulty.


(** A remuxer that writes four bytes to its output and exits with
    status 1; the probe of the concrete service. *)
Definition no_remux (name : string) (args : list string)
    (f : gmap string (list byte)) : ExecOutcome :=
  if name =? "ffmpeg" then
    {| exit_code := 1; stdout := "";
       fs_after := <[List.last args "" := bytes_of_string "ftyp"]> f |}
  else Demo.tools name args f.

Definition clip : Demo.Scenario :=
  Demo.video "video/mp4" (bytes_of_string "clip")
    [Demo.stream 1920 1080 (Some "16:9")].

Definition run (tools : string -> list string -> gmap string (list byte)
                        -> ExecOutcome) : Response * World :=
  handlerUploadVideo Demo.cfg
    (with_tools (Demo.env clip) tools (json_Unmarshal (Demo.env clip)))
    (Demo.request "alice" clip) Demo.world0.

End Faulty.

(** A service whose probe and decoder read what they are given: the
    probe prints the bytes of the file, which is a list of display aspect
    ratios separated by [;], with [-] for a stream that has none, and the
    decoder turns such a list into streams. *)
Module Studio.

Definition tools (name : string) (args : list string)
    (f : gmap string (list byte)) : ExecOutcome :=
  if name =? "ffprobe" then
    match f !! List.last args "" with
    | Some c => {| exit_code := 0; stdout := string_of_list_byte c;
                   fs_after := f |}
    | None => {| exit_code := 1; stdout := ""; fs_after := f |}
    end
  else Demo.tools name args f.

Definition stream_of (field : string) : RawStream :=
  {| js_width := None; js_height := None;
     js_display_aspect_ratio := if field =? "-" then None else Some field |}.

Definition decode (out : string) : Result (list RawStream) :=
  if out =? "" then Ok []
  else if out =? "?" then Err "invalid character"
  else Ok (map stream_of (strings_Split out ";")).

Definition upload (ratios : string) : Demo.Scenario :=
  Demo.video "video/mp4" (bytes_of_string ratios) [].

Definition env (ratios : string) : Env :=
  with_tools (Demo.env (upload ratios)) tools decode.

Definition request (ratios : string) : Request :=
  Demo.request "alice" (upload ratios).

Definition run (ratios : string) : Response * World :=
  handlerUploadVideo Demo.cfg (env ratios) (request ratios) Demo.world0.

End Studio.

(** * Properties *)

(** ** The encoder and the splitter on known values *)

Example base64_foobar :
  base64.EncodeToString base64.RawURLEncoding (bytes_of_string "foobar") = "Zm9vYmFy"
  /\ base64.EncodeToString base64.URLEncoding (bytes_of_string "fo") = "Zm8="
  /\ base64.EncodeToString base64.RawURLEncoding (bytes_of_string "fo") = "Zm8"
  /\ base64.EncodeToString base64.URLEncoding (bytes_of_string "f") = "Zg=="
  /\ base64.EncodeToString base64.URLEncoding [xfb; xff] = "-_8=".
Proof. repeat split; reflexivity. Qed.

Example split_media :
  strings_Split "image/png" "/" = ["image"; "png"]
  /\ strings_Split "a//b" "/" = ["a"; ""; "b"]
  /\ strings_Split "plain" "/" = ["plain"].
Proof. repeat split; reflexivity. Qed.

(** ** The encoding of names *)

Section ListBy3.

Context {A : Type} (P : list A -> Prop).
Hypothesis P0 : P [].
Hypothesis P1 : forall a, P [a].
Hypothesis P2 : forall a b, P [a; b].
Hypothesis P3 : forall a b c l, P l -> P (a :: b :: c :: l).

(** Induction that follows the groups of three of the encoder. *)
Lemma list_ind_by3 : forall l, P l.
Proof.
  assert (H : forall l, P l /\ (forall a, P (a :: l))
                        /\ (forall a b, P (a :: b :: l))).
  { induction l as [|x l (IH0 & IH1 & IH2)].
    - repeat split; auto.
    - repeat split; auto. }
  intros l. apply H.
Qed.

End ListBy3.

Lemma land63_lt (n : N) : (N.land n 63 < 64)%N.
Proof.
  change 63%N with (N.ones 6). rewrite N.land_ones.
  apply N.mod_lt. discriminate.
Qed.

Lemma sym_url_char (enc : base64.Encoding) (i : N) :
  base64.encode enc = base64.encodeURL ->
  (i < 64)%N ->
  base64.url_char (base64.sym enc i) = true.
Proof.
  intros Henc Hi. unfold base64.sym. rewrite Henc.
  assert (Hall : forallb
            (fun k => base64.url_char
                        match String.get k base64.encodeURL with
                        | Some c => c
                        | None => Ascii.zero
                        end) (seq 0 64) = true) by (vm_compute; reflexivity).
  rewrite forallb_forall in Hall. apply Hall.
  apply in_seq. lia.
Qed.





Lemma rand_Read_length (env : Env) (n : nat) (b : list byte) :
  rand_Read env n = Ok b -> length b = n.
Proof.
  unfold rand_Read. destruct (rand_fails env); [discriminate|].
  intros [= <-]. now rewrite length_map, length_seq.
Qed.

(** ** Files and the store along the handlers *)

Lemma write_created (path : string) (bytes : list byte) (w : World) :
  write_file path bytes (set_fs w (<[path := []]> (fs w)))
  = set_fs w (<[path := bytes]> (fs w)).
Proof.
  unfold write_file, set_fs; cbn.
  rewrite lookup_insert_eq, insert_insert_eq. reflexivity.
Qed.

Lemma io_Copy_created (short : option nat) (path : string) (src : list byte)
    (w : World) :
  snd (io_Copy short path src (set_fs w (<[path := []]> (fs w))))
  = set_fs w (<[path := copied short src]> (fs w)).
Proof.
  unfold io_Copy, copied. destruct short; cbn [snd]; apply write_created.
Qed.

Lemma allowed_image_extension (mediaType : string) :
  negb (mediaType =? "image/jpeg") && negb (mediaType =? "image/png") = false ->
  exists ext, (ext = "jpeg" \/ ext = "png")
              /\ mediaType = "image/" ++ ext
              /\ strings_Split mediaType "/" = ["image"; ext].
Proof.
  intros H. apply andb_false_iff in H.
  destruct H as [H|H]; apply negb_false_iff, String.eqb_eq in H; subst.
  - exists "jpeg". auto.
  - exists "png". auto.
Qed.

Ltac wrong_status H :=
  exfalso; cbn in H;
  first [ discriminate H | vm_compute in H; discriminate H ].

(** A thumbnail request answered with 200 went through every step; the
    values of the steps and the world it leaves are these. *)
Lemma thumbnail_success_inv (cfg : apiConfig) (env : Env) (r : Request)
    (w : World) :
  status (fst (handlerUploadThumbnail cfg env r w)) = StatusOK ->
  exists videoID token userID header data row mediaType ext,
    uuid_Parse env (PathValue r "videoID") = Ok videoID
    /\ auth_GetBearerToken env (Header r) = Ok token
    /\ auth_ValidateJWT env token (jwtSecret cfg) = Ok userID
    /\ FormFile env (fst (ParseMultipartForm env r (N.shiftl 10 20)))
         "thumbnail" = Ok header
    /\ File_ReadAll env header = Ok data
    /\ db w !! videoID = Some row
    /\ row_UserID row = userID
    /\ mime_ParseMediaType env
         (Header_Get (fh_Header header) "Content-Type") = Ok mediaType
    /\ (ext = "jpeg" \/ ext = "png")
    /\ mediaType = "image/" ++ ext
    /\ rand_fails env = false
    /\ let fileName :=
         base64.EncodeToString base64.RawURLEncoding
           (drawn env) ++ "." ++ ext in
       let url := "http://localhost:" ++ port cfg ++ "/assets/" ++ fileName in
       handlerUploadThumbnail cfg env r w
       = (respondWithJSON StatusOK PEmpty,
          set_db
            (set_fs w (<[filepath_Join (assetsRoot cfg) fileName :=
                           copied (Copy_assets_short env) data]> (fs w)))
            (<[videoID := to_row (set_ThumbnailURL (to_Video videoID row) url)]>
               (db w))).
Proof.
  unfold handlerUploadThumbnail. intros H.
  destruct (uuid_Parse env _) as [videoID|] eqn:E1; [|wrong_status H].
  destruct (auth_GetBearerToken env _) as [token|] eqn:E2; [|wrong_status H].
  destruct (auth_ValidateJWT env _ _) as [userID|] eqn:E3; [|wrong_status H].
  destruct (ParseMultipartForm env r _) as [r' perr] eqn:E4.
  destruct (FormFile env r' _) as [header|] eqn:E5; [|wrong_status H].
  destruct (File_ReadAll env header) as [data|] eqn:E6; [|wrong_status H].
  destruct (GetVideo env w videoID) as [VideoMeta|] eqn:E7; [|wrong_status H].
  destruct (negb (UserID VideoMeta =? userID)%N) eqn:E8; [wrong_status H|].
  destruct (mime_ParseMediaType env _) as [mediaType|] eqn:E9; [|wrong_status H].
  destruct (negb (mediaType =? "image/jpeg") && negb (mediaType =? "image/png"))
    eqn:E10; [wrong_status H|].
  destruct (allowed_image_extension _ E10) as (ext & Hext & Hmt & Hsplit).
  rewrite Hsplit in *. cbn [length Nat.eqb negb nth] in *.
  unfold rand_Read in *.
  change (map (rand_source env) (seq 0 32)) with (drawn env) in *.
  destruct (rand_fails env) eqn:E11; [wrong_status H|].
  unfold os_Create in *.
  destruct (Create_fails env) eqn:E12; [wrong_status H|].
  destruct (io_Copy _ _ _ _) as [n w2] eqn:E13.
  pose proof (io_Copy_created (Copy_assets_short env)
                (filepath_Join (assetsRoot cfg)
                   (base64.EncodeToString base64.RawURLEncoding
                      (drawn env) ++ "." ++ ext))
                data w) as Hw2.
  rewrite E13 in Hw2. cbn [snd] in Hw2. subst w2.
  unfold GetVideo in E7.
  destruct (GetVideo_fails env); [discriminate|].
  destruct (db w !! videoID) as [row|] eqn:E14; [|discriminate].
  injection E7 as <-.
  apply negb_false_iff, N.eqb_eq in E8. cbn in E8.
  unfold UpdateVideo in *. cbn [ID set_ThumbnailURL to_Video db set_fs] in *.
  destruct (UpdateVideo_fails env) eqn:E15; [wrong_status H|].
  rewrite E14 in *.
  exists videoID, token, userID, header, data, row, mediaType, ext.
  cbn [fst]. repeat split; auto.
Qed.

(** A thumbnail request that is not answered with 200 leaves the store
    as it was. *)
Lemma thumbnail_error_keeps_store (cfg : apiConfig) (env : Env) (r : Request)
    (w : World) :
  status (fst (handlerUploadThumbnail cfg env r w)) <> StatusOK ->
  db (snd (handlerUploadThumbnail cfg env r w)) = db w.
Proof.
  unfold handlerUploadThumbnail, os_Create, UpdateVideo, io_Copy.
  intros H.
  repeat (case_match; simplify_eq/=; try reflexivity);
    exfalso; apply H; reflexivity.
Qed.

(** Running a command touches neither the store nor the bucket, and is
    logged. *)
Lemma exec_Run_frame (env : Env) (name : string) (args : list string)
    (w : World) :
  let w' := snd (exec_Run env name args w) in
  db w' = db w /\ s3 w' = s3 w /\ cmds w' = (cmds w ++ [(name, args)])%list
  /\ fs w' = fs_after (exec env name args (fs w)).
Proof. unfold exec_Run. case_match; cbn; auto. Qed.

Lemma getVideoAspectRatio_frame (env : Env) (filePath : string) (w : World) :
  let w' := snd (getVideoAspectRatio env filePath w) in
  db w' = db w /\ s3 w' = s3 w
  /\ cmds w' = (cmds w ++ [("ffprobe",
       ["-v"; "error"; "-print_format"; "json"; "-show_streams"; filePath])])%list.
Proof.
  unfold getVideoAspectRatio.
  match goal with |- context [exec_Run env ?n ?a w] =>
    pose proof (exec_Run_frame env n a w) as (Hd & Hs & Hc & _);
    destruct (exec_Run env n a w) as [[out|e] w1] end;
    cbn [snd] in *; repeat case_match; cbn [snd]; auto.
Qed.

Lemma processVideoForFastStart_frame (env : Env) (filePath : string)
    (w : World) :
  let w' := snd (processVideoForFastStart env filePath w) in
  db w' = db w /\ s3 w' = s3 w
  /\ cmds w' = (cmds w ++ [("ffmpeg",
       ["-i"; filePath; "-c"; "copy"; "-movflags"; "faststart"; "-f"; "mp4";
        (filePath ++ ".processing")%string])])%list.
Proof.
  unfold processVideoForFastStart.
  match goal with |- context [exec_Run env ?n ?a w] =>
    pose proof (exec_Run_frame env n a w) as (Hd & Hs & Hc & _);
    destruct (exec_Run env n a w) as [[out|e] w1] end;
    cbn [snd] in *; auto.
Qed.

Lemma processVideoForFastStart_name (env : Env) (filePath name : string)
    (w w' : World) :
  processVideoForFastStart env filePath w = (Ok name, w') ->
  name = filePath ++ ".processing".
Proof.
  unfold processVideoForFastStart.
  destruct (exec_Run env _ _ w) as [[out|e] w1]; congruence.
Qed.

(** A video request answered with 200 went through every step. *)
Lemma video_success_inv (cfg : apiConfig) (env : Env) (r : Request)
    (w : World) :
  status (fst (handlerUploadVideo cfg env r w)) = StatusOK ->
  exists videoID token userID row header aspect w2 w3 body,
    uuid_Parse env (PathValue r "videoID") = Ok videoID
    /\ auth_GetBearerToken env (Header r) = Ok token
    /\ auth_ValidateJWT env token (jwtSecret cfg) = Ok userID
    /\ db w !! videoID = Some row
    /\ row_UserID row = userID
    /\ FormFile env r "video" = Ok header
    /\ mime_ParseMediaType env
         (Header_Get (fh_Header header) "Content-Type") = Ok "video/mp4"
    /\ getVideoAspectRatio env (tmpName env)
         (set_fs w (<[tmpName env := fh_content header]> (fs w)))
       = (Ok aspect, w2)
    /\ processVideoForFastStart env (tmpName env) w2
       = (Ok (tmpName env ++ ".processing"), w3)
    /\ os_OpenFile env (tmpName env ++ ".processing") w3 = Ok body
    /\ rand_fails env = false
    /\ let key :=
         choosePrefix aspect ++ "/"
         ++ base64.EncodeToString base64.URLEncoding
              (drawn env) ++ ".mp4" in
       let v := set_VideoURL (to_Video videoID row)
                  (s3CfDistribution cfg ++ "/" ++ key) in
       fst (handlerUploadVideo cfg env r w) = respondWithJSON StatusOK (PVideo v)
       /\ db (snd (handlerUploadVideo cfg env r w))
          = <[videoID := to_row v]> (db w)
       /\ s3 (snd (handlerUploadVideo cfg env r w))
          = <[(s3Bucket cfg, key) :=
                {| o_Body := body; o_ContentType := "video/mp4" |}]> (s3 w).
Proof.
  unfold handlerUploadVideo. intros H.
  destruct (uuid_Parse env _) as [videoID|] eqn:E1; [|wrong_status H].
  destruct (auth_GetBearerToken env _) as [token|] eqn:E2; [|wrong_status H].
  destruct (auth_ValidateJWT env _ _) as [userID|] eqn:E3; [|wrong_status H].
  destruct (GetVideo env w videoID) as [videoDb|] eqn:E4; [|wrong_status H].
  destruct (negb (UserID videoDb =? userID)%N) eqn:E5; [wrong_status H|].
  destruct (FormFile env r _) as [header|] eqn:E6; [|wrong_status H].
  destruct (mime_ParseMediaType env _) as [mediaType|] eqn:E7; [|wrong_status H].
  destruct (negb (mediaType =? "video/mp4")) eqn:E8; [wrong_status H|].
  apply negb_false_iff, String.eqb_eq in E8. subst mediaType.
  unfold os_CreateTemp in *. cbn [String.eqb] in *. fold (tmpName env) in *.
  destruct (CreateTemp_fails env) eqn:E9; [wrong_status H|].
  unfold defer in *. cbn [fst snd] in *.
  destruct (io_Copy _ _ _ _) as [[n|e] w1] eqn:E10; [|wrong_status H].
  pose proof (io_Copy_created (Copy_temp_short env) (tmpName env)
                (fh_content header) w) as Hw1.
  rewrite E10 in Hw1. cbn [snd] in Hw1.
  unfold io_Copy in E10.
  destruct (Copy_temp_short env) eqn:E11; [discriminate|].
  cbn [copied] in Hw1. subst w1.
  destruct (getVideoAspectRatio env _ _) as [[aspect|e] w2] eqn:E12;
    [|wrong_status H].
  pose proof (getVideoAspectRatio_frame env (tmpName env)
                (set_fs w (<[tmpName env := fh_content header]> (fs w))))
    as (Hd2 & Hs2 & _).
  rewrite E12 in Hd2, Hs2. cbn [snd set_fs db s3] in Hd2, Hs2.
  destruct (processVideoForFastStart env _ w2) as [[processed|e] w3] eqn:E13;
    [|wrong_status H].
  pose proof (processVideoForFastStart_name _ _ _ _ _ E13). subst processed.
  pose proof (processVideoForFastStart_frame env (tmpName env) w2)
    as (Hd3 & Hs3 & _).
  rewrite E13 in Hd3, Hs3. cbn [snd] in Hd3, Hs3.
  cbn [fst snd] in *.
  destruct (os_OpenFile env _ w3) as [body|] eqn:E14; [|wrong_status H].
  unfold rand_Read in *.
  change (map (rand_source env) (seq 0 32)) with (drawn env) in *.
  destruct (rand_fails env) eqn:E15; [wrong_status H|].
  unfold PutObject in *.
  destruct (PutObject_fails env) eqn:E16; [wrong_status H|].
  unfold GetVideo in E4.
  destruct (GetVideo_fails env); [discriminate|].
  destruct (db w !! videoID) as [row|] eqn:E17; [|discriminate].
  injection E4 as <-.
  apply negb_false_iff, N.eqb_eq in E5. cbn in E5.
  unfold UpdateVideo in *. cbn [ID set_VideoURL to_Video db set_s3] in *.
  destruct (UpdateVideo_fails env) eqn:E18; [wrong_status H|].
  rewrite Hd3, Hd2, E17 in *.
  exists videoID, token, userID, row, header, aspect, w2, w3, body.
  cbn [fst snd os_Remove set_fs set_db set_s3 db s3].
  rewrite Hs3, Hs2.
  repeat split; auto.
Qed.

(** A video request that is not answered with 200 leaves the store as it
    was. *)
Lemma video_error_keeps_store (cfg : apiConfig) (env : Env) (r : Request)
    (w : World) :
  status (fst (handlerUploadVideo cfg env r w)) <> StatusOK ->
  db (snd (handlerUploadVideo cfg env r w)) = db w.
Proof.
  unfold handlerUploadVideo, os_CreateTemp, defer, io_Copy,
    getVideoAspectRatio, processVideoForFastStart, exec_Run, PutObject,
    UpdateVideo.
  intros H.
  repeat (case_match; simplify_eq/=; try reflexivity);
    exfalso; apply H; reflexivity.
Qed.

(** ** The probe *)

(** What [getVideoAspectRatio] returns when this run of the probe exits
    with status zero and what it prints decodes to [raw]. *)
Lemma getVideoAspectRatio_value (env : Env) (filePath : string) (w : World)
    (raw : list RawStream) :
  let o := exec env "ffprobe" (snd (ffprobe_cmd filePath)) (fs w) in
  exit_code o = 0%Z ->
  json_Unmarshal env (stdout o) = Ok raw ->
  fst (getVideoAspectRatio env filePath w)
  = match raw with
    | [] => Err "No streams found"
    | s :: _ => Ok (DisplayAspectRatio (decode_stream s))
    end.
Proof.
  unfold getVideoAspectRatio, exec_Run, ffprobe_cmd. cbn [snd]. cbn zeta.
  intros -> Hsays. cbn [Z.eqb]. rewrite Hsays.
  destruct raw; reflexivity.
Qed.

Ltac turned_down := left; cbn; repeat split; discriminate.

(** Either the request is turned down before the probe, and then no tool
    has run and nothing but temporary files was touched; or the probe has
    run on the temporary copy of the upload, and then its failure is the
    answer, and its success is followed by the remux. *)
Lemma video_probe_outcome (cfg : apiConfig) (env : Env) (r : Request)
    (w : World) :
  let res := handlerUploadVideo cfg env r w in
  (cmds (snd res) = cmds w /\ db (snd res) = db w /\ s3 (snd res) = s3 w
   /\ status (fst res) <> StatusOK)
  \/ exists header,
       FormFile env r "video" = Ok header
       /\ let w1 := set_fs w (<[tmpName env := fh_content header]> (fs w)) in
          (forall e w2,
              getVideoAspectRatio env (tmpName env) w1 = (Err e, w2) ->
              res = (respondWithError StatusInternalServerError
                       "Couldn't get video aspect ratio",
                     os_Remove (tmpName env) w2))
          /\ (forall a w2,
                 getVideoAspectRatio env (tmpName env) w1 = (Ok a, w2) ->
                 cmds (snd res) = (cmds w2 ++ [ffmpeg_cmd (tmpName env)])%list).
Proof.
  unfold handlerUploadVideo. cbn zeta.
  destruct (uuid_Parse env _) as [videoID|]; [|turned_down].
  destruct (auth_GetBearerToken env _) as [token|]; [|turned_down].
  destruct (auth_ValidateJWT env _ _) as [userID|]; [|turned_down].
  destruct (GetVideo env w videoID) as [videoDb|]; [|turned_down].
  destruct (negb (UserID videoDb =? userID)%N); [turned_down|].
  destruct (FormFile env r _) as [header|] eqn:E6; [|turned_down].
  destruct (mime_ParseMediaType env _) as [mediaType|]; [|turned_down].
  destruct (negb (mediaType =? "video/mp4")); [turned_down|].
  unfold os_CreateTemp. cbn [String.eqb]. fold (tmpName env).
  destruct (CreateTemp_fails env); [turned_down|].
  unfold defer. cbn [fst snd].
  destruct (io_Copy _ _ _ _) as [[n|e] w1] eqn:E10.
  2:{ left. unfold io_Copy in E10.
      destruct (Copy_temp_short env); simplify_eq/=. repeat split; discriminate. }
  pose proof (io_Copy_created (Copy_temp_short env) (tmpName env)
                (fh_content header) w) as Hw1.
  rewrite E10 in Hw1. cbn [snd] in Hw1.
  unfold io_Copy in E10.
  destruct (Copy_temp_short env) eqn:E11; [discriminate|].
  cbn [copied] in Hw1. subst w1.
  right. exists header. split; [reflexivity|]. cbn zeta. split.
  - intros e w2 ->. reflexivity.
  - intros a w2 ->.
    pose proof (processVideoForFastStart_frame env (tmpName env) w2)
      as (_ & _ & Hc).
    cbn zeta in Hc.
    destruct (processVideoForFastStart env _ w2) as [[processed|e] w3];
      cbn [fst snd] in *; [|exact Hc].
    unfold PutObject, UpdateVideo.
    repeat (case_match; simplify_eq/=; try exact Hc).
Qed.

(** ** Content types *)

Lemma not_among_images (env : Env) (contentType mediaType : string) :
  media_type_among env ["image/jpeg"; "image/png"] contentType = false ->
  mime_ParseMediaType env contentType = Ok mediaType ->
  negb (mediaType =? "image/jpeg") && negb (mediaType =? "image/png") = true.
Proof.
  unfold media_type_among. intros H Hm. rewrite Hm in H. cbn in H.
  rewrite orb_false_r in H. apply orb_false_iff in H as [-> ->]. reflexivity.
Qed.

Lemma not_mp4 (env : Env) (contentType mediaType : string) :
  media_type_among env ["video/mp4"] contentType = false ->
  mime_ParseMediaType env contentType = Ok mediaType ->
  negb (mediaType =? "video/mp4") = true.
Proof.
  unfold media_type_among. intros H Hm. rewrite Hm in H. cbn in H.
  rewrite orb_false_r in H. now rewrite H.
Qed.

Ltac error_status :=
  cbn; unfold StatusBadRequest, StatusUnauthorized, StatusInternalServerError;
  auto.

Ltac early_error :=
  split; [reflexivity | split; [error_status | intros; simplify_eq; congruence]].

Ltac type_error :=
  split; [reflexivity | split; [error_status | intros; reflexivity]].

Ltac before_temp :=
  cbn [fst snd]; split_and!;
  [reflexivity | reflexivity | reflexivity | reflexivity | reflexivity
  | reflexivity | error_status
  | intros; first [reflexivity | simplify_eq; congruence]].

(** C4, as amended.  A thumbnail request whose part declares a content
    type that does not parse to [image/jpeg] or [image/png] changes
    nothing (no file in the assets directory, no record) and is answered
    with an error; the error is the 400 of the content-type check as soon
    as the identifier, the token, the read of the part, the record and
    its owner pass, and otherwise the 400, 401 or 500 of the first of these
    that does not. *)
Theorem thumbnail_rejects_other_types (cfg : apiConfig) (env : Env)
    (r : Request) (w : World) (header : FileHeader) :
  thumbnail_part env r = Ok header ->
  media_type_among env ["image/jpeg"; "image/png"] (declared_type header)
  = false ->
  let res := handlerUploadThumbnail cfg env r w in
  snd res = w
  /\ In (status (fst res))
       [StatusBadRequest; StatusUnauthorized; StatusInternalServerError]
  /\ (forall videoID token row,
         uuid_Parse env (PathValue r "videoID") = Ok videoID ->
         auth_GetBearerToken env (Header r) = Ok token ->
         auth_ValidateJWT env token (jwtSecret cfg) = Ok (row_UserID row) ->
         ReadAll_fails env = false ->
         GetVideo_fails env = false ->
         db w !! videoID = Some row ->
         fst res = respondWithError StatusBadRequest "Invalid media type").
Proof.
  unfold thumbnail_part, declared_type, handlerUploadThumbnail.
  intros Hpart Htype. cbn zeta.
  destruct (uuid_Parse env _) as [videoID|] eqn:E1; [|early_error].
  destruct (auth_GetBearerToken env _) as [token|] eqn:E2; [|early_error].
  destruct (auth_ValidateJWT env _ _) as [userID|] eqn:E3; [|early_error].
  destruct (ParseMultipartForm env r _) as [r' perr]. cbn [fst] in Hpart.
  rewrite Hpart.
  unfold File_ReadAll.
  destruct (ReadAll_fails env) eqn:E4; [early_error|].
  unfold GetVideo.
  destruct (GetVideo_fails env) eqn:E5; [early_error|].
  destruct (db w !! videoID) as [row|] eqn:E6; [|early_error].
  cbn [UserID to_Video].
  destruct (N.eqb_spec (row_UserID row) userID) as [Hown|Hown]; cbn [negb].
  2:{ early_error. }
  destruct (mime_ParseMediaType env _) as [mediaType|] eqn:Hmt;
    [|type_error].
  rewrite (not_among_images env _ _ Htype Hmt).
  type_error.
Qed.

(** C5, as amended.  A video request whose part declares a content type
    that does not parse to [video/mp4] is answered with an error before
    the handler creates its temporary file: the answer and the world left
    are the same where no temporary file can be created, the file of that
    name and the output of the remux are as they were, no tool has run, no
    object is put and no record changed.  The error is the 400 of the
    content-type check as soon as the identifier, the token, the record
    and its owner pass, and otherwise the 400, 401 or 500 of the first of
    these that does not.  (The temporary files that the multipart reader
    keeps for a part too large for its memory are not the handler's and
    are not covered.) *)
Theorem video_rejects_other_types (cfg : apiConfig) (env : Env)
    (r : Request) (w : World) (header : FileHeader) :
  FormFile env r "video" = Ok header ->
  media_type_among env ["video/mp4"] (declared_type header) = false ->
  let res := handlerUploadVideo cfg env r w in
  handlerUploadVideo cfg (with_temp_down env) r w = res
  /\ fs (snd res) !! tmpName env = fs w !! tmpName env
  /\ fs (snd res) !! (tmpName env ++ ".processing")
     = fs w !! (tmpName env ++ ".processing")
  /\ cmds (snd res) = cmds w
  /\ s3 (snd res) = s3 w
  /\ db (snd res) = db w
  /\ In (status (fst res))
       [StatusBadRequest; StatusUnauthorized; StatusInternalServerError]
  /\ (forall videoID token row,
         uuid_Parse env (PathValue r "videoID") = Ok videoID ->
         auth_GetBearerToken env (Header r) = Ok token ->
         auth_ValidateJWT env token (jwtSecret cfg) = Ok (row_UserID row) ->
         GetVideo_fails env = false ->
         db w !! videoID = Some row ->
         fst res = respondWithError StatusBadRequest "Invalid media type").
Proof.
  unfold declared_type, handlerUploadVideo.
  intros Hpart Htype. cbn zeta.
  change (FormFile (with_temp_down env)) with (FormFile env).
  change (GetVideo (with_temp_down env)) with (GetVideo env).
  cbn [with_temp_down uuid_Parse auth_GetBearerToken auth_ValidateJWT
         mime_ParseMediaType].
  destruct (uuid_Parse env _) as [videoID|] eqn:E1; [|before_temp].
  destruct (auth_GetBearerToken env _) as [token|] eqn:E2; [|before_temp].
  destruct (auth_ValidateJWT env _ _) as [userID|] eqn:E3; [|before_temp].
  unfold GetVideo.
  destruct (GetVideo_fails env) eqn:E5; [before_temp|].
  destruct (db w !! videoID) as [row|] eqn:E6; [|before_temp].
  cbn [UserID to_Video].
  destruct (N.eqb_spec (row_UserID row) userID) as [Hown|Hown]; cbn [negb].
  2:{ before_temp. }
  rewrite Hpart.
  destruct (mime_ParseMediaType env _) as [mediaType|] eqn:Hmt;
    [|before_temp].
  rewrite (not_mp4 env _ _ Htype Hmt).
  before_temp.
Qed.

Lemma thumbnail_rejects_other_types_witness :
  let sc := Demo.thumbnail "text/plain" None None in
  thumbnail_part (Demo.env sc) (Demo.request "alice" sc) = Ok (Demo.part sc)
  /\ media_type_among (Demo.env sc) ["image/jpeg"; "image/png"]
       (declared_type (Demo.part sc)) = false
  /\ Demo.run_thumbnail "alice" sc
     = (respondWithError StatusBadRequest "Invalid media type", Demo.world0).
Proof.
  intros sc.
  assert (H1 : thumbnail_part (Demo.env sc) (Demo.request "alice" sc)
               = Ok (Demo.part sc)) by (vm_compute; reflexivity).
  assert (H2 : media_type_among (Demo.env sc) ["image/jpeg"; "image/png"]
                 (declared_type (Demo.part sc)) = false)
    by (vm_compute; reflexivity).
  split; [exact H1|]. split; [exact H2|].
  destruct (thumbnail_rejects_other_types Demo.cfg (Demo.env sc)
              (Demo.request "alice" sc) Demo.world0 (Demo.part sc) H1 H2)
    as (Hw & _ & Hs).
  specialize (Hs Demo.vid "alice" Demo.video0
                eq_refl eq_refl eq_refl eq_refl eq_refl eq_refl).
  unfold Demo.run_thumbnail.
  rewrite (surjective_pairing (handlerUploadThumbnail _ _ _ _)).
  rewrite Hw, Hs. reflexivity.
Defined.

(** C4, as stated, fails: a request that declares [text/plain] and
    carries a token that does not validate is answered with 401. *)
Lemma thumbnail_other_type_answered_401 :
  ~ (forall cfg env r w header,
        thumbnail_part env r = Ok header ->
        media_type_among env ["image/jpeg"; "image/png"]
          (declared_type header) = false ->
        status (fst (handlerUploadThumbnail cfg env r w)) = StatusBadRequest
        /\ fs (snd (handlerUploadThumbnail cfg env r w)) = fs w).
Proof.
  intros H.
  pose (sc := Demo.thumbnail "text/plain" None None).
  destruct (H Demo.cfg (Demo.env sc) (Demo.request "mallory" sc) Demo.world0
              (Demo.part sc)) as [Hs _].
  - vm_compute; reflexivity.
  - vm_compute; reflexivity.
  - vm_compute in Hs. discriminate Hs.
Qed.

Lemma video_rejects_other_types_witness :
  let sc := Demo.video "video/quicktime" (bytes_of_string "moov") [] in
  FormFile (Demo.env sc) (Demo.request "alice" sc) "video" = Ok (Demo.part sc)
  /\ media_type_among (Demo.env sc) ["video/mp4"]
       (declared_type (Demo.part sc)) = false
  /\ fst (Demo.run_video "alice" sc)
     = respondWithError StatusBadRequest "Invalid media type"
  /\ cmds (snd (Demo.run_video "alice" sc)) = []
  /\ fs (snd (Demo.run_video "alice" sc)) !! "/tmp/video.mp42750139" = None.
Proof.
  intros sc.
  assert (H1 : FormFile (Demo.env sc) (Demo.request "alice" sc) "video"
               = Ok (Demo.part sc)) by (vm_compute; reflexivity).
  assert (H2 : media_type_among (Demo.env sc) ["video/mp4"]
                 (declared_type (Demo.part sc)) = false)
    by (vm_compute; reflexivity).
  split; [exact H1|]. split; [exact H2|].
  destruct (video_rejects_other_types Demo.cfg (Demo.env sc)
              (Demo.request "alice" sc) Demo.world0 (Demo.part sc) H1 H2)
    as (_ & Htmp & _ & Hc & _ & _ & _ & Hs).
  specialize (Hs Demo.vid "alice" Demo.video0
                eq_refl eq_refl eq_refl eq_refl eq_refl).
  unfold Demo.run_video.
  split; [exact Hs|]. split; [exact Hc|].
  etransitivity; [exact Htmp|]. vm_compute. reflexivity.
Defined.

(** C5, as stated, fails: a request that declares [video/quicktime] and
    comes from a user who does not own the record is answered with 401. *)
Lemma video_other_type_answered_401 :
  ~ (forall cfg env r w header,
        FormFile env r "video" = Ok header ->
        media_type_among env ["video/mp4"] (declared_type header) = false ->
        status (fst (handlerUploadVideo cfg env r w)) = StatusBadRequest).
Proof.
  intros H.
  pose (sc := Demo.video "video/quicktime" (bytes_of_string "moov") []).
  assert (Hs := H Demo.cfg (Demo.env sc) (Demo.request "bob" sc) Demo.world0
                  (Demo.part sc)).
  vm_compute in Hs. specialize (Hs eq_refl eq_refl). discriminate Hs.
Qed.

(** ** Fast start *)

(** C8.  [processVideoForFastStart] runs the remuxer once, with the
    input path and, as the output, the input path followed by
    [.processing]; it returns that path exactly when the tool exits
    with status zero and an error exactly when it does not. *)
Theorem fast_start_result (env : Env) (filePath : string) (w : World) :
  let args := ["-i"; filePath; "-c"; "copy"; "-movflags"; "faststart";
               "-f"; "mp4"; filePath ++ ".processing"] in
  let o := exec env "ffmpeg" args (fs w) in
  let res := processVideoForFastStart env filePath w in
  cmds (snd res) = (cmds w ++ [("ffmpeg", args)])%list
  /\ fs (snd res) = fs_after o
  /\ (exit_code o = 0%Z <-> fst res = Ok (filePath ++ ".processing"))
  /\ (exit_code o <> 0%Z <-> exists e, fst res = Err e).
Proof.
  unfold processVideoForFastStart, exec_Run. cbn zeta.
  destruct (Z.eqb_spec
              (exit_code
                 (exec env "ffmpeg"
                    ["-i"; filePath; "-c"; "copy"; "-movflags"; "faststart";
                     "-f"; "mp4"; filePath ++ ".processing"] (fs w))) 0)
    as [Hz|Hz]; cbn [fst snd log_cmd set_fs cmds fs].
  - repeat split; auto.
    + intros Hn. now destruct Hn.
    + intros [e He]. discriminate He.
  - repeat split; auto.
    + intros Hn. now destruct Hz.
    + intros He. discriminate He.
    + intros _. eauto.
Qed.

(** ** Classification by aspect ratio *)

Lemma choosePrefix_spec (dar prefix : string) :
  spec_prefix dar prefix -> choosePrefix dar = prefix.
Proof.
  intros [| | d H1 H2 _]; try reflexivity.
  unfold choosePrefix.
  apply String.eqb_neq in H1, H2. now rewrite H1, H2.
Qed.

(** What a 200 of the video handler says about the object and the URL,
    when the probe it ran on the copy of the part exited with status zero
    and what it printed decodes to [s] first. *)
Lemma video_success_key (cfg : apiConfig) (env : Env) (r : Request)
    (w : World) (header : FileHeader) (s : RawStream) (rest : list RawStream) :
  FormFile env r "video" = Ok header ->
  exit_code (probe_outcome env w header) = 0%Z ->
  json_Unmarshal env (stdout (probe_outcome env w header)) = Ok (s :: rest) ->
  let res := handlerUploadVideo cfg env r w in
  let key := choosePrefix (DisplayAspectRatio (decode_stream s)) ++ "/"
             ++ base64.EncodeToString base64.URLEncoding (drawn env)
             ++ ".mp4" in
  status (fst res) = StatusOK ->
  is_Some (s3 (snd res) !! (s3Bucket cfg, key))
  /\ exists v, fst res = respondWithJSON StatusOK (PVideo v)
               /\ VideoURL v = Some (s3CfDistribution cfg ++ "/" ++ key).
Proof.
  intros Hpart Hrun Hsays res key Hok.
  destruct (video_success_inv cfg env r w Hok)
    as (videoID & token & userID & row & header' & aspect & w2 & w3 & body
        & _ & _ & _ & _ & _ & Hpart' & _ & Hprobe & _ & _ & _ & Hres & _ & Hs3).
  rewrite Hpart in Hpart'. injection Hpart' as <-.
  pose proof (getVideoAspectRatio_value env (tmpName env)
                (copied_to_tmp env w header) (s :: rest) Hrun Hsays) as Hval.
  unfold copied_to_tmp in Hval.
  rewrite Hprobe in Hval. cbn [fst] in Hval. injection Hval as ->.
  subst res key. split.
  - rewrite Hs3, lookup_insert_eq. eauto.
  - eexists. split; [exact Hres|reflexivity].
Qed.

(** C1.  Let the request carry the part [header], and let the probe that
    the handler runs on its copy of the part exit with status zero and
    print an output that decodes to the streams [raw].  If the first
    stream has display aspect ratio [16:9], [9:16], or another non-empty
    value, the sub-routine returns that ratio, the prefix chosen is
    [landscape], [portrait], or [other], and a request answered with 200
    has put its object under that prefix and recorded the URL with it.  If
    there is no stream, the sub-routine returns the error
    [No streams found], no object is put and no record changed, and the
    request is either turned down before the probe or answered with the
    500 of the aspect-ratio step, the probe being the only tool run. *)
Theorem aspect_ratio_classification (cfg : apiConfig) (env : Env)
    (r : Request) (w : World) (header : FileHeader) (raw : list RawStream) :
  FormFile env r "video" = Ok header ->
  exit_code (probe_outcome env w header) = 0%Z ->
  json_Unmarshal env (stdout (probe_outcome env w header)) = Ok raw ->
  let res := handlerUploadVideo cfg env r w in
  let name := base64.EncodeToString base64.URLEncoding (drawn env) in
  let probed :=
    fst (getVideoAspectRatio env (tmpName env) (copied_to_tmp env w header)) in
  (forall s rest dar prefix,
      raw = s :: rest ->
      js_display_aspect_ratio s = Some dar ->
      spec_prefix dar prefix ->
      probed = Ok dar
      /\ choosePrefix dar = prefix
      /\ (status (fst res) = StatusOK ->
          is_Some (s3 (snd res) !! (s3Bucket cfg, prefix ++ "/" ++ name ++ ".mp4"))
          /\ exists v,
               fst res = respondWithJSON StatusOK (PVideo v)
               /\ VideoURL v
                  = Some (s3CfDistribution cfg ++ "/"
                          ++ prefix ++ "/" ++ name ++ ".mp4")))
  /\ (raw = [] ->
      probed = Err "No streams found"
      /\ s3 (snd res) = s3 w
      /\ db (snd res) = db w
      /\ ((cmds (snd res) = cmds w /\ status (fst res) <> StatusOK)
          \/ (cmds (snd res) = (cmds w ++ [ffprobe_cmd (tmpName env)])%list
              /\ fst res = respondWithError StatusInternalServerError
                             "Couldn't get video aspect ratio"))).
Proof.
  intros Hpart Hrun Hsays res name probed.
  pose proof (getVideoAspectRatio_value env (tmpName env)
                (copied_to_tmp env w header) raw Hrun Hsays) as Hval.
  fold probed in Hval. split.
  - intros s rest dar prefix -> Hdar Hspec.
    assert (Hd : DisplayAspectRatio (decode_stream s) = dar)
      by (unfold decode_stream; cbn; now rewrite Hdar).
    split; [|split].
    + now rewrite Hval, Hd.
    + now apply choosePrefix_spec.
    + intros Hok.
      pose proof (video_success_key cfg env r w header s rest
                    Hpart Hrun Hsays Hok) as Hkey.
      rewrite Hd, (choosePrefix_spec dar prefix Hspec) in Hkey. exact Hkey.
  - intros ->.
    split; [exact Hval|].
    destruct (video_probe_outcome cfg env r w)
      as [(Hc & Hd & Hs & Hst) | (header' & Hpart' & Herr & _)].
    + fold res in Hc, Hd, Hs, Hst. auto.
    + rewrite Hpart in Hpart'. injection Hpart' as <-.
      subst probed. unfold copied_to_tmp in Hval.
      pose proof (getVideoAspectRatio_frame env (tmpName env)
                    (set_fs w (<[tmpName env := fh_content header]> (fs w))))
        as (Hd & Hs & Hc).
      destruct (getVideoAspectRatio env (tmpName env) _) as [[a|e] w2] eqn:E;
        cbn [fst snd] in *; [discriminate|].
      specialize (Herr e w2 eq_refl). fold res in Herr. rewrite Herr.
      cbn [fst snd os_Remove set_fs db s3 cmds].
      split; [exact Hs|]. split; [exact Hd|]. right. split; [exact Hc|reflexivity].
Qed.

Lemma aspect_ratio_classification_witness :
  let wide := "16:9;-" in
  let none := "" in
  let part := fun ratios => Demo.part (Studio.upload ratios) in
  let probe := fun ratios =>
    probe_outcome (Studio.env ratios) Demo.world0 (part ratios) in
  (FormFile (Studio.env wide) (Studio.request wide) "video" = Ok (part wide)
   /\ exit_code (probe wide) = 0%Z
   /\ stdout (probe wide) = wide
   /\ json_Unmarshal (Studio.env wide) (stdout (probe wide))
      = Ok [Studio.stream_of "16:9"; Studio.stream_of "-"])
  /\ is_Some (s3 (snd (Studio.run wide))
              !! ("tubely-videos",
                  "landscape/CzBVep_E6Q4zWH2ix-wRNluApcrvFDleg6jN8hc8YYY=.mp4"))
  /\ json_Unmarshal (Studio.env none) (stdout (probe none)) = Ok []
  /\ fst (Studio.run none)
     = respondWithError StatusInternalServerError
         "Couldn't get video aspect ratio".
Proof.
  intros wide none part probe.
  assert (Hpart : forall ratios,
             FormFile (Studio.env ratios) (Studio.request ratios) "video"
             = Ok (part ratios)) by (intros; reflexivity).
  assert (Hrun : exit_code (probe wide) = 0%Z) by (vm_compute; reflexivity).
  assert (Hsays : json_Unmarshal (Studio.env wide) (stdout (probe wide))
                  = Ok [Studio.stream_of "16:9"; Studio.stream_of "-"])
    by (vm_compute; reflexivity).
  assert (Hrun0 : exit_code (probe none) = 0%Z) by (vm_compute; reflexivity).
  assert (Hsays0 : json_Unmarshal (Studio.env none) (stdout (probe none))
                   = Ok []) by (vm_compute; reflexivity).
  split; [|split; [|split; [exact Hsays0|]]].
  - split; [apply Hpart|]. split; [exact Hrun|].
    split; [vm_compute; reflexivity | exact Hsays].
  - destruct (aspect_ratio_classification Demo.cfg (Studio.env wide)
                (Studio.request wide) Demo.world0 (part wide) _
                (Hpart wide) Hrun Hsays) as [Hfirst _].
    destruct (Hfirst _ _ "16:9" "landscape" eq_refl eq_refl spec_landscape)
      as (_ & _ & Hok).
    apply Hok. vm_compute. reflexivity.
  - destruct (aspect_ratio_classification Demo.cfg (Studio.env none)
                (Studio.request none) Demo.world0 (part none) _
                (Hpart none) Hrun0 Hsays0) as [_ Hnone].
    destruct (Hnone eq_refl) as (_ & _ & _ & [[Hc _] | [_ Hres]]).
    + vm_compute in Hc. discriminate Hc.
    + exact Hres.
Defined.

(** C10, as amended.  Let the request carry the part [header], and let
    the probe that the handler runs on its copy of the part exit with
    status zero and print an output that decodes to at least one stream,
    the first of which has no display aspect ratio or an empty one.  Then
    [getVideoAspectRatio] returns the empty string and no error, the
    prefix chosen is [other], the handler goes on to the remux unless it
    turned the request down before the probe, and a request answered with
    200 has put its object under [other/]. *)
Theorem empty_first_ratio_goes_to_other (cfg : apiConfig) (env : Env)
    (r : Request) (w : World) (header : FileHeader) (s : RawStream)
    (rest : list RawStream) :
  FormFile env r "video" = Ok header ->
  exit_code (probe_outcome env w header) = 0%Z ->
  json_Unmarshal env (stdout (probe_outcome env w header)) = Ok (s :: rest) ->
  js_display_aspect_ratio s = None \/ js_display_aspect_ratio s = Some "" ->
  let res := handlerUploadVideo cfg env r w in
  let name := base64.EncodeToString base64.URLEncoding (drawn env) in
  fst (getVideoAspectRatio env (tmpName env) (copied_to_tmp env w header))
  = Ok ""
  /\ choosePrefix "" = "other"
  /\ ((cmds (snd res) = cmds w /\ status (fst res) <> StatusOK)
      \/ cmds (snd res)
         = (cmds w ++ [ffprobe_cmd (tmpName env); ffmpeg_cmd (tmpName env)])%list)
  /\ (status (fst res) = StatusOK ->
      is_Some (s3 (snd res) !! (s3Bucket cfg, "other/" ++ name ++ ".mp4"))).
Proof.
  intros Hpart Hrun Hsays Hdar res name.
  assert (Hd : DisplayAspectRatio (decode_stream s) = "")
    by (unfold decode_stream; cbn; destruct Hdar as [-> | ->]; reflexivity).
  pose proof (getVideoAspectRatio_value env (tmpName env)
                (copied_to_tmp env w header) (s :: rest) Hrun Hsays) as Hval.
  change (fst (getVideoAspectRatio env (tmpName env)
                 (copied_to_tmp env w header))
          = Ok (DisplayAspectRatio (decode_stream s))) in Hval.
  rewrite Hd in Hval.
  split; [|split; [reflexivity|split]].
  - exact Hval.
  - destruct (video_probe_outcome cfg env r w)
      as [(Hc & _ & _ & Hst) | (header' & Hpart' & _ & Hgo)]; [left; auto|].
    right. rewrite Hpart in Hpart'. injection Hpart' as <-.
    unfold copied_to_tmp in Hval.
    pose proof (getVideoAspectRatio_frame env (tmpName env)
                  (set_fs w (<[tmpName env := fh_content header]> (fs w))))
      as (_ & _ & Hc).
    destruct (getVideoAspectRatio env (tmpName env) _) as [[a|e] w2] eqn:E;
      cbn [fst snd] in *; [|discriminate].
    specialize (Hgo a w2 eq_refl). fold res in Hgo.
    rewrite Hgo, Hc. cbn [set_fs cmds].
    now rewrite <- app_assoc.
  - intros Hok.
    destruct (video_success_key cfg env r w header s rest
                Hpart Hrun Hsays Hok) as [Hkey _].
    rewrite Hd in Hkey. exact Hkey.
Qed.

Lemma empty_first_ratio_goes_to_other_witness :
  let ratios := "-;16:9" in
  let part := Demo.part (Studio.upload ratios) in
  let probe := probe_outcome (Studio.env ratios) Demo.world0 part in
  FormFile (Studio.env ratios) (Studio.request ratios) "video" = Ok part
  /\ exit_code probe = 0%Z
  /\ stdout probe = ratios
  /\ json_Unmarshal (Studio.env ratios) (stdout probe)
     = Ok [Studio.stream_of "-"; Studio.stream_of "16:9"]
  /\ js_display_aspect_ratio (Studio.stream_of "-") = None
  /\ is_Some (s3 (snd (Studio.run ratios))
              !! ("tubely-videos",
                  "other/CzBVep_E6Q4zWH2ix-wRNluApcrvFDleg6jN8hc8YYY=.mp4")).
Proof.
  intros ratios part probe.
  assert (Hpart : FormFile (Studio.env ratios) (Studio.request ratios) "video"
                  = Ok part) by reflexivity.
  assert (Hrun : exit_code probe = 0%Z) by (vm_compute; reflexivity).
  assert (Hsays : json_Unmarshal (Studio.env ratios) (stdout probe)
                  = Ok [Studio.stream_of "-"; Studio.stream_of "16:9"])
    by (vm_compute; reflexivity).
  split; [exact Hpart|]. split; [exact Hrun|].
  split; [vm_compute; reflexivity|]. split; [exact Hsays|].
  split; [reflexivity|].
  destruct (empty_first_ratio_goes_to_other Demo.cfg (Studio.env ratios)
              (Studio.request ratios) Demo.world0 part _ _
              Hpart Hrun Hsays (or_introl eq_refl))
    as (_ & _ & _ & Hok).
  apply Hok. vm_compute. reflexivity.
Defined.

(** C10, as stated, fails: with a first stream of ratio [16:9] and a
    second stream without one (an audio stream), [getVideoAspectRatio]
    returns [16:9], not the empty string. *)
Lemma ratio_missing_on_later_stream :
  ~ (forall env raw path w,
        (forall args f, exit_code (exec env "ffprobe" args f) = 0%Z) ->
        (forall out, json_Unmarshal env out = Ok raw) ->
        (exists s, In s raw
                   /\ (js_display_aspect_ratio s = None
                       \/ js_display_aspect_ratio s = Some "")) ->
        fst (getVideoAspectRatio env path w) = Ok "").
Proof.
  intros H.
  pose (sc := Demo.video "video/mp4" (bytes_of_string "wide")
                [Demo.stream 1920 1080 (Some "16:9"); Demo.audio]).
  specialize (H (Demo.env sc) _ "/tmp/video.mp42750139" Demo.world0
                (fun _ _ => eq_refl) (fun _ => eq_refl)).
  assert (Hex : exists s,
             In s [Demo.stream 1920 1080 (Some "16:9"); Demo.audio]
             /\ (js_display_aspect_ratio s = None
                 \/ js_display_aspect_ratio s = Some "")).
  { exists Demo.audio. split; [right; left; reflexivity | left; reflexivity]. }
  specialize (H Hex). vm_compute in H. discriminate H.
Qed.

(** ** The thumbnail URL *)

(** C3, as amended.  After a thumbnail upload answered with 200, the
    record of the video has as its thumbnail URL the literal
    [http://localhost:], the configured port, [/assets/], the unpadded
    URL-safe base64 encoding of the 32 bytes drawn, a dot, and [jpeg] or
    [png]; the other fields of the record are as they were. *)
Theorem thumbnail_url_on_localhost (cfg : apiConfig) (env : Env)
    (r : Request) (w : World) :
  let res := handlerUploadThumbnail cfg env r w in
  status (fst res) = StatusOK ->
  exists videoID row ext,
    uuid_Parse env (PathValue r "videoID") = Ok videoID
    /\ db w !! videoID = Some row
    /\ (ext = "jpeg" \/ ext = "png")
    /\ db (snd res) !! videoID
       = Some {| row_UserID := row_UserID row;
                 row_ThumbnailURL :=
                   Some ("http://localhost:" ++ port cfg ++ "/assets/"
                         ++ base64.EncodeToString base64.RawURLEncoding
                              (drawn env)
                         ++ "." ++ ext);
                 row_VideoURL := row_VideoURL row |}.
Proof.
  intros res Hok.
  destruct (thumbnail_success_inv cfg env r w Hok)
    as (videoID & token & userID & header & data & row & mediaType & ext
        & Hid & _ & _ & _ & _ & Hrow & _ & _ & Hext & _ & _ & Hres).
  exists videoID, row, ext. repeat split; auto.
  subst res. cbn zeta in Hres. rewrite Hres. cbn [snd set_db db].
  rewrite lookup_insert_eq. reflexivity.
Qed.

Lemma thumbnail_url_on_localhost_witness :
  let res := Demo.run_thumbnail "alice" (Demo.thumbnail "image/png" None None) in
  status (fst res) = StatusOK
  /\ exists videoID row ext,
       Ok Demo.vid = Ok videoID
       /\ db Demo.world0 !! videoID = Some row
       /\ (ext = "jpeg" \/ ext = "png")
       /\ db (snd res) !! videoID
          = Some {| row_UserID := row_UserID row;
                    row_ThumbnailURL :=
                      Some ("http://localhost:" ++ "8091" ++ "/assets/"
                            ++ "CzBVep_E6Q4zWH2ix-wRNluApcrvFDleg6jN8hc8YYY"
                            ++ "." ++ ext);
                    row_VideoURL := row_VideoURL row |}.
Proof.
  intros res.
  assert (Hok : status (fst res) = StatusOK) by (vm_compute; reflexivity).
  split; [exact Hok|].
  exact (thumbnail_url_on_localhost Demo.cfg _ _ _ Hok).
Defined.

(** C3, as stated, fails: no value of the configuration is the host of
    the URL.  With a configuration whose values are a secret, [./assets],
    [8091], a bucket name and a distribution base, the URL recorded starts
    with [http://localhost:8091/assets/]. *)
Lemma thumbnail_host_is_not_configured :
  ~ (forall cfg env r w videoID,
        status (fst (handlerUploadThumbnail cfg env r w)) = StatusOK ->
        uuid_Parse env (PathValue r "videoID") = Ok videoID ->
        exists host file,
          In host (config_values cfg)
          /\ row_ThumbnailURL <$> db (snd (handlerUploadThumbnail cfg env r w))
                                  !! videoID
             = Some (Some ("http://" ++ host ++ ":" ++ port cfg
                           ++ "/assets/" ++ file))).
Proof.
  intros H.
  pose (sc := Demo.thumbnail "image/png" None None).
  destruct (H Demo.cfg (Demo.env sc) (Demo.request "alice" sc) Demo.world0
              Demo.vid) as (host & file & Hin & Hurl).
  - vm_compute; reflexivity.
  - vm_compute; reflexivity.
  - assert (Hdb : row_ThumbnailURL
                    <$> db (snd (handlerUploadThumbnail Demo.cfg (Demo.env sc)
                                   (Demo.request "alice" sc) Demo.world0))
                        !! Demo.vid
                  = Some (Some "http://localhost:8091/assets/CzBVep_E6Q4zWH2ix-wRNluApcrvFDleg6jN8hc8YYY.png"))
      by (vm_compute; reflexivity).
    rewrite Hdb in Hurl. clear Hdb.
    cbn in Hin.
    destruct Hin as [<- | [<- | [<- | [<- | [<- | []]]]]];
      cbn in Hurl; discriminate Hurl.
Qed.

(** ** Errors that are not looked at *)

(** C9.  Let every step whose error the thumbnail handler looks at
    succeed, and let the copy of the bytes into the created file stop
    after [k] bytes, fewer than were uploaded.  Whatever error
    [ParseMultipartForm] returned, the answer is 200 with the empty
    object, the record has the new thumbnail URL, and the file holds the
    first [k] bytes only. *)
Theorem thumbnail_success_despite_short_write (cfg : apiConfig) (env : Env)
    (r : Request) (w : World) (videoID : UUID) (token : string)
    (row : VideoRow) (header : FileHeader) (mediaType : string) (k : nat)
    (perr : option error) :
  snd (ParseMultipartForm env r (N.shiftl 10 20)) = perr ->
  uuid_Parse env (PathValue r "videoID") = Ok videoID ->
  auth_GetBearerToken env (Header r) = Ok token ->
  auth_ValidateJWT env token (jwtSecret cfg) = Ok (row_UserID row) ->
  thumbnail_part env r = Ok header ->
  ReadAll_fails env = false ->
  GetVideo_fails env = false ->
  db w !! videoID = Some row ->
  mime_ParseMediaType env (declared_type header) = Ok mediaType ->
  mediaType = "image/jpeg" \/ mediaType = "image/png" ->
  rand_fails env = false ->
  Create_fails env = false ->
  UpdateVideo_fails env = false ->
  Copy_assets_short env = Some k ->
  k < length (fh_content header) ->
  let res := handlerUploadThumbnail cfg env r w in
  exists ext,
    let fileName :=
      base64.EncodeToString base64.RawURLEncoding (drawn env) ++ "." ++ ext in
    mediaType = "image/" ++ ext
    /\ fst res = respondWithJSON StatusOK PEmpty
    /\ row_ThumbnailURL <$> db (snd res) !! videoID
       = Some (Some ("http://localhost:" ++ port cfg ++ "/assets/" ++ fileName))
    /\ fs (snd res) !! filepath_Join (assetsRoot cfg) fileName
       = Some (firstn k (fh_content header))
    /\ length (firstn k (fh_content header)) < length (fh_content header).
Proof.
  unfold thumbnail_part, declared_type.
  intros _ Hid Htok Hjwt Hpart Hread Hget Hrow Hmt Himg Hrand Hcreate Hupd
    Hshort Hk.
  assert (Hext : exists ext, mediaType = "image/" ++ ext
                             /\ strings_Split mediaType "/" = ["image"; ext]).
  { destruct Himg as [-> | ->]; [exists "jpeg" | exists "png"]; auto. }
  destruct Hext as (ext & Hm & Hsplit). exists ext. cbn zeta.
  assert (Hallowed :
            negb (mediaType =? "image/jpeg") && negb (mediaType =? "image/png")
            = false) by (destruct Himg as [-> | ->]; reflexivity).
  unfold handlerUploadThumbnail.
  rewrite Hid, Htok, Hjwt.
  destruct (ParseMultipartForm env r _) as [r' perr']. cbn [fst] in Hpart.
  rewrite Hpart.
  unfold File_ReadAll, GetVideo. rewrite Hread, Hget, Hrow.
  cbn [UserID to_Video]. rewrite N.eqb_refl. cbn [negb].
  rewrite Hmt, Hallowed, Hsplit. cbn [length Nat.eqb negb nth].
  unfold rand_Read. rewrite Hrand.
  change (map (rand_source env) (seq 0 32)) with (drawn env).
  unfold os_Create. rewrite Hcreate, Hshort.
  unfold io_Copy. rewrite write_created.
  unfold UpdateVideo. rewrite Hupd.
  cbn [ID set_ThumbnailURL to_Video db set_fs]. rewrite Hrow.
  cbn [fst snd set_db set_fs db fs].
  rewrite !lookup_insert_eq. cbn.
  repeat split; auto.
  rewrite length_firstn. lia.
Qed.

Lemma thumbnail_success_despite_short_write_witness :
  let sc := Demo.thumbnail "image/png" (Some 3) (Some "invalid semicolon separator in query") in
  let res := Demo.run_thumbnail "alice" sc in
  snd (ParseMultipartForm (Demo.env sc) (Demo.request "alice" sc) (N.shiftl 10 20))
  = Some "invalid semicolon separator in query"
  /\ Copy_assets_short (Demo.env sc) = Some 3
  /\ 3 < length (fh_content (Demo.part sc))
  /\ fst res = respondWithJSON StatusOK PEmpty
  /\ row_ThumbnailURL <$> db (snd res) !! Demo.vid
     = Some (Some "http://localhost:8091/assets/CzBVep_E6Q4zWH2ix-wRNluApcrvFDleg6jN8hc8YYY.png")
  /\ fs (snd res) !! "./assets/CzBVep_E6Q4zWH2ix-wRNluApcrvFDleg6jN8hc8YYY.png"
     = Some (bytes_of_string "PNG").
Proof.
  intros sc res.
  assert (Hperr : snd (ParseMultipartForm (Demo.env sc)
                         (Demo.request "alice" sc) (N.shiftl 10 20))
                  = Some "invalid semicolon separator in query")
    by (vm_compute; reflexivity).
  assert (Hpart : thumbnail_part (Demo.env sc) (Demo.request "alice" sc)
                  = Ok (Demo.part sc)) by (vm_compute; reflexivity).
  assert (Hk : 3 < length (fh_content (Demo.part sc))) by (cbn; lia).
  destruct (thumbnail_success_despite_short_write Demo.cfg (Demo.env sc)
              (Demo.request "alice" sc) Demo.world0 Demo.vid "alice"
              Demo.video0 (Demo.part sc) "image/png" 3 _
              Hperr eq_refl eq_refl eq_refl Hpart eq_refl eq_refl eq_refl
              eq_refl (or_intror eq_refl) eq_refl eq_refl eq_refl eq_refl Hk)
    as (ext & Hm & Hres & Hurl & Hfile & _).
  unfold String.append in Hm. injection Hm as <-.
  repeat split; auto.
Defined.

(** ** Generated names *)






Lemma fast_start_result_witness :
  let w := {| db := ∅; fs := {[ "/tmp/in.mp4" := bytes_of_string "mdat-moov" ]};
              s3 := ∅; cmds := [] |} in
  let sc := Demo.video "video/mp4" [] [] in
  processVideoForFastStart (Demo.env sc) "/tmp/in.mp4" w
  = (Ok "/tmp/in.mp4.processing",
     {| db := ∅;
        fs := {[ "/tmp/in.mp4" := bytes_of_string "mdat-moov";
                 "/tmp/in.mp4.processing" := bytes_of_string "mdat-moov" ]};
        s3 := ∅;
        cmds := [("ffmpeg", ["-i"; "/tmp/in.mp4"; "-c"; "copy"; "-movflags";
                             "faststart"; "-f"; "mp4";
                             "/tmp/in.mp4.processing"])] |})
  /\ exists e, fst (processVideoForFastStart (Demo.env sc) "/tmp/missing.mp4" w)
               = Err e.
Proof.
  intros w sc. split.
  - destruct (fast_start_result (Demo.env sc) "/tmp/in.mp4" w)
      as (_ & _ & [Hzero _] & _).
    vm_compute. reflexivity.
  - destruct (fast_start_result (Demo.env sc) "/tmp/missing.mp4" w)
      as (_ & _ & _ & [Herr _]).
    apply Herr. vm_compute. discriminate.
Defined.

(** ** The cap on the body *)

(** With the capped reader in place, a body of more than [n] bytes cannot
    be read. *)
Lemma capped_body_unreadable (rd : Reader) (n : N) :
  (n < N.of_nat (length (rd_data rd)))%N ->
  Body_ReadAll (http_MaxBytesReader rd n) = Err "http: request body too large".
Proof.
  intros Hn. unfold Body_ReadAll, http_MaxBytesReader. cbn [rd_limit rd_data].
  destruct (N.leb_spec (N.of_nat (length (rd_data rd)))
              match rd_limit rd with Some m => N.min m n | None => n end)
    as [Hle|]; [|reflexivity].
  exfalso. destruct (rd_limit rd); lia.
Qed.

(** Had the handler assigned the capped reader to the body, a request
    that passes the steps before the form is read and has more than 1 GiB
    of body would be answered with 400. *)
Lemma capped_handler_rejects_large_body (cfg : apiConfig) (env : Env)
    (r : Request) (w : World) (videoID : UUID) (token : string)
    (row : VideoRow) :
  uuid_Parse env (PathValue r "videoID") = Ok videoID ->
  auth_GetBearerToken env (Header r) = Ok token ->
  auth_ValidateJWT env token (jwtSecret cfg) = Ok (row_UserID row) ->
  GetVideo_fails env = false ->
  db w !! videoID = Some row ->
  MultipartForm r = None ->
  (N.shiftl 1 30 < N.of_nat (length (rd_data (Body r))))%N ->
  handlerUploadVideo_capped cfg env r w
  = (respondWithError StatusBadRequest "Unable to parse form file", w).
Proof.
  intros Hid Htok Hjwt Hget Hrow Hform Hbig.
  unfold handlerUploadVideo_capped, handlerUploadVideo.
  cbn [set_Body PathValue Header Body].
  rewrite Hid, Htok, Hjwt. unfold GetVideo. rewrite Hget, Hrow.
  cbn [UserID to_Video]. rewrite N.eqb_refl. cbn [negb].
  unfold FormFile, ParseMultipartForm.
  cbn [set_Body MultipartForm Body Header].
  rewrite Hform, (capped_body_unreadable _ _ Hbig). reflexivity.
Qed.

(** C2: what the code does.  The reader that [http.MaxBytesReader]
    returns is dropped, so the body is read whatever its length: in the
    concrete service, a video upload with any content at all, however
    long, is answered with 200 and stored in full; with the capped reader
    in place the same request would be turned down once the content
    exceeds 1 GiB. *)
Theorem video_body_read_in_full (content : list byte) :
  let sc := Demo.video "video/mp4" content [Demo.stream 1920 1080 (Some "16:9")] in
  let res := Demo.run_video "alice" sc in
  rd_data (Body (Demo.request "alice" sc)) = content
  /\ status (fst res) = StatusOK
  /\ o_Body <$> s3 (snd res)
                !! ("tubely-videos",
                    "landscape/CzBVep_E6Q4zWH2ix-wRNluApcrvFDleg6jN8hc8YYY=.mp4")
     = Some content
  /\ ((N.shiftl 1 30 < N.of_nat (length content))%N ->
      handlerUploadVideo_capped Demo.cfg (Demo.env sc)
        (Demo.request "alice" sc) Demo.world0
      = (respondWithError StatusBadRequest "Unable to parse form file",
         Demo.world0)).
Proof.
  cbn zeta. split; [reflexivity|]. split; [vm_compute; reflexivity|].
  split; [vm_compute; reflexivity|].
  intros Hbig.
  apply (capped_handler_rejects_large_body Demo.cfg _ _ Demo.world0
           Demo.vid "alice" Demo.video0); try reflexivity.
  exact Hbig.
Qed.

(** C7: what the code does.  In the concrete service, a thumbnail upload
    by the owner whose copy into the created file fails at the first byte
    is answered with 200, and the record gets the URL of a file that is
    empty. *)
Theorem failed_write_still_updates_record :
  let sc := Demo.thumbnail "image/png" (Some 0) None in
  let res := Demo.run_thumbnail "alice" sc in
  Copy_assets_short (Demo.env sc) = Some 0
  /\ status (fst res) = StatusOK
  /\ db (snd res) <> db Demo.world0
  /\ row_ThumbnailURL <$> db (snd res) !! Demo.vid
     = Some (Some "http://localhost:8091/assets/CzBVep_E6Q4zWH2ix-wRNluApcrvFDleg6jN8hc8YYY.png")
  /\ fs (snd res) !! "./assets/CzBVep_E6Q4zWH2ix-wRNluApcrvFDleg6jN8hc8YYY.png"
     = Some [].
Proof.
  cbn zeta. split; [reflexivity|]. split; [vm_compute; reflexivity|].
  split; [|split; vm_compute; reflexivity].
  intros Heq. apply (f_equal (fun d => row_ThumbnailURL <$> d !! Demo.vid)) in Heq.
  vm_compute in Heq. discriminate Heq.
Qed.

(** * Further properties of the handlers *)

(** ** The worlds the thumbnail handler can leave *)

Ltac no_effect :=
  left; split; [reflexivity|]; split; [cbn; discriminate|];
  split; [reflexivity|]; split; [cbn; auto | cbn; discriminate].

(** Either the thumbnail handler turns the request down and leaves the
    world as it was, or the request came with a token of the owner of the
    record and an image part, the file was created and written, and the
    answer depends on the update of the store alone. *)
Lemma thumbnail_world_shape (cfg : apiConfig) (env : Env) (r : Request)
    (w : World) :
  let res := handlerUploadThumbnail cfg env r w in
  (snd res = w /\ status (fst res) <> StatusOK /\ rejection (fst res))
  \/ exists videoID token header row ext,
       uuid_Parse env (PathValue r "videoID") = Ok videoID
       /\ auth_GetBearerToken env (Header r) = Ok token
       /\ auth_ValidateJWT env token (jwtSecret cfg) = Ok (row_UserID row)
       /\ thumbnail_part env r = Ok header
       /\ db w !! videoID = Some row
       /\ (ext = "jpeg" \/ ext = "png")
       /\ let path := filepath_Join (assetsRoot cfg) (thumbnail_fileName env ext) in
          let url := "http://localhost:" ++ port cfg ++ "/assets/"
                     ++ thumbnail_fileName env ext in
          let w1 := set_fs w (<[path := copied (Copy_assets_short env)
                                          (fh_content header)]> (fs w)) in
          (UpdateVideo_fails env = true
           /\ res = (respondWithError StatusInternalServerError
                       "Couldn't update video", w1))
          \/ (UpdateVideo_fails env = false
              /\ res = (respondWithJSON StatusOK PEmpty,
                        set_db w1
                          (<[videoID :=
                               to_row (set_ThumbnailURL (to_Video videoID row)
                                         url)]> (db w)))).
Proof.
  unfold handlerUploadThumbnail, thumbnail_part, thumbnail_fileName. cbn zeta.
  destruct (uuid_Parse env _) as [videoID|] eqn:E1; [|no_effect].
  destruct (auth_GetBearerToken env _) as [token|] eqn:E2; [|no_effect].
  destruct (auth_ValidateJWT env _ _) as [userID|] eqn:E3; [|no_effect].
  destruct (ParseMultipartForm env r _) as [r' perr] eqn:E4. cbn [fst].
  destruct (FormFile env r' _) as [header|] eqn:E5; [|no_effect].
  unfold File_ReadAll.
  destruct (ReadAll_fails env) eqn:E6; [no_effect|].
  unfold GetVideo.
  destruct (GetVideo_fails env); [no_effect|].
  destruct (db w !! videoID) as [row|] eqn:E7; [|no_effect].
  cbn [UserID to_Video].
  destruct (N.eqb_spec (row_UserID row) userID) as [Hown|Hown]; cbn [negb];
    [|no_effect].
  destruct (mime_ParseMediaType env _) as [mediaType|] eqn:E9; [|no_effect].
  destruct (negb (mediaType =? "image/jpeg") && negb (mediaType =? "image/png"))
    eqn:E10; [no_effect|].
  destruct (allowed_image_extension _ E10) as (ext & Hext & Hmt & Hsplit).
  rewrite Hsplit. cbn [length Nat.eqb negb nth].
  unfold rand_Read.
  change (map (rand_source env) (seq 0 32)) with (drawn env).
  destruct (rand_fails env) eqn:E11; [no_effect|].
  unfold os_Create.
  destruct (Create_fails env) eqn:E12; [no_effect|].
  destruct (io_Copy _ _ _ _) as [n w2] eqn:E13.
  pose proof (io_Copy_created (Copy_assets_short env)
                (filepath_Join (assetsRoot cfg)
                   (base64.EncodeToString base64.RawURLEncoding (drawn env)
                    ++ "." ++ ext))
                (fh_content header) w) as Hw2.
  rewrite E13 in Hw2. cbn [snd] in Hw2. subst w2.
  unfold UpdateVideo. cbn [ID set_ThumbnailURL to_Video db set_fs].
  right. exists videoID, token, header, row, ext. subst userID.
  repeat (split; [first [reflexivity | assumption]|]).
  destruct (UpdateVideo_fails env); [left|right]; rewrite ?E7; auto.
Qed.

(** X1.  After a thumbnail upload answered with 200 whose copy was not
    cut short, the file named by the recorded URL, under the assets root,
    holds exactly the bytes of the uploaded part, whatever was at that
    path before. *)
Theorem thumbnail_round_trip (cfg : apiConfig) (env : Env) (r : Request)
    (w : World) :
  let res := handlerUploadThumbnail cfg env r w in
  status (fst res) = StatusOK ->
  Copy_assets_short env = None ->
  exists header ext videoID,
    thumbnail_part env r = Ok header
    /\ uuid_Parse env (PathValue r "videoID") = Ok videoID
    /\ row_ThumbnailURL <$> db (snd res) !! videoID
       = Some (Some ("http://localhost:" ++ port cfg ++ "/assets/"
                     ++ thumbnail_fileName env ext))
    /\ fs (snd res) !! filepath_Join (assetsRoot cfg) (thumbnail_fileName env ext)
       = Some (fh_content header).
Proof.
  intros res Hok Hfull.
  destruct (thumbnail_world_shape cfg env r w)
    as [(_ & Hbad & _) | (videoID & token & header & row & ext & Hid & _ & _ & Hpart
                    & _ & _ & [[_ Hres] | [_ Hres]])];
    fold res in Hbad || fold res in Hres.
  - now destruct Hbad.
  - rewrite Hres in Hok. discriminate Hok.
  - exists header, ext, videoID. rewrite Hres, Hfull.
    cbn [snd set_db set_fs db fs copied]. rewrite !lookup_insert_eq.
    repeat split; auto.
Qed.

Lemma thumbnail_round_trip_witness :
  let sc := Demo.thumbnail "image/png" None None in
  let res := Demo.run_thumbnail "alice" sc in
  status (fst res) = StatusOK
  /\ Copy_assets_short (Demo.env sc) = None
  /\ fs (snd res) !! "./assets/CzBVep_E6Q4zWH2ix-wRNluApcrvFDleg6jN8hc8YYY.png"
     = Some (bytes_of_string "PNG-bytes").
Proof.
  intros sc res.
  assert (Hok : status (fst res) = StatusOK) by (vm_compute; reflexivity).
  split; [exact Hok|]. split; [reflexivity|].
  destruct (thumbnail_round_trip Demo.cfg (Demo.env sc)
              (Demo.request "alice" sc) Demo.world0 Hok eq_refl)
    as (header & ext & videoID & Hpart & _ & _ & Hfile).
  vm_compute in Hpart. injection Hpart as <-.
  vm_compute. reflexivity.
Defined.

Lemma insert_keeps_file (m : gmap string (list byte)) (k p : string)
    (v : list byte) :
  is_Some (m !! p) -> is_Some (<[k := v]> m !! p).
Proof.
  intros H. destruct (decide (k = p)) as [<-|Hne].
  - rewrite lookup_insert_eq. eauto.
  - now rewrite lookup_insert_ne.
Qed.

(** X2.  The thumbnail handler never touches the bucket and never runs a
    tool; it removes none of the files it finds; it changes no record but
    the one the request names, and that one only when it answers 200. *)
Theorem thumbnail_frame (cfg : apiConfig) (env : Env) (r : Request)
    (w : World) :
  let res := handlerUploadThumbnail cfg env r w in
  s3 (snd res) = s3 w
  /\ cmds (snd res) = cmds w
  /\ (forall path, is_Some (fs w !! path) -> is_Some (fs (snd res) !! path))
  /\ (forall id,
         uuid_Parse env (PathValue r "videoID") <> Ok id ->
         db (snd res) !! id = db w !! id)
  /\ (status (fst res) <> StatusOK -> db (snd res) = db w).
Proof.
  intros res.
  destruct (thumbnail_world_shape cfg env r w)
    as [(Hw & _ & _) | (videoID & token & header & row & ext & Hid & _ & _ & _
                  & _ & _ & [[_ Hres] | [_ Hres]])];
    fold res in Hw || fold res in Hres.
  - rewrite Hw. split_and!; auto.
  - rewrite Hres. cbn [fst snd set_fs s3 cmds fs db].
    split_and!; try reflexivity.
    intros path Hsome. now apply insert_keeps_file.
  - rewrite Hres. cbn [fst snd set_fs set_db s3 cmds fs db].
    split_and!; try reflexivity.
    + intros path Hsome. now apply insert_keeps_file.
    + intros id Hne. rewrite lookup_insert_ne; [reflexivity|].
      intros ->. now apply Hne.
    + intros Hbad. now destruct Hbad.
Qed.

(** X3.  A thumbnail request that is answered with 200, or that changes
    a record, or after which the file that the handler names from the
    bytes drawn is not as it was, has an identifier that parses, a bearer
    token that validates, and a user who is the owner of the record of
    that identifier. *)
Theorem thumbnail_effects_need_owner (cfg : apiConfig) (env : Env)
    (r : Request) (w : World) :
  let res := handlerUploadThumbnail cfg env r w in
  let path := fun ext =>
    filepath_Join (assetsRoot cfg) (thumbnail_fileName env ext) in
  status (fst res) = StatusOK
  \/ db (snd res) <> db w
  \/ (exists ext, fs (snd res) !! path ext <> fs w !! path ext) ->
  exists videoID token row,
    uuid_Parse env (PathValue r "videoID") = Ok videoID
    /\ auth_GetBearerToken env (Header r) = Ok token
    /\ auth_ValidateJWT env token (jwtSecret cfg) = Ok (row_UserID row)
    /\ db w !! videoID = Some row.
Proof.
  intros res path Heff.
  destruct (thumbnail_world_shape cfg env r w)
    as [(Hw & Hbad & _) | (videoID & token & header & row & ext & Hid & Htok & Hjwt
                     & _ & Hrow & _)].
  - fold res in Hw, Hbad. exfalso.
    destruct Heff as [Hok | [Hdb | [ext Hfile]]].
    + now apply Hbad.
    + apply Hdb. now rewrite Hw.
    + apply Hfile. now rewrite Hw.
  - eauto 10.
Qed.

Lemma thumbnail_effects_need_owner_witness :
  let sc := Demo.thumbnail "image/png" None None in
  let file := "./assets/CzBVep_E6Q4zWH2ix-wRNluApcrvFDleg6jN8hc8YYY.png" in
  fs (snd (Demo.run_thumbnail "alice" sc)) !! file <> fs Demo.world0 !! file
  /\ auth_ValidateJWT (Demo.env sc) "alice" (jwtSecret Demo.cfg)
     = Ok (row_UserID Demo.video0)
  /\ fs (snd (Demo.run_thumbnail "bob" sc)) !! file = fs Demo.world0 !! file
  /\ fst (Demo.run_thumbnail "bob" sc)
     = respondWithError StatusUnauthorized "Not your video".
Proof.
  intros sc file.
  assert (Hfile : fs (snd (Demo.run_thumbnail "alice" sc)) !! file
                  <> fs Demo.world0 !! file)
    by (vm_compute; discriminate).
  split; [exact Hfile|].
  split; [|split; vm_compute; reflexivity].
  destruct (thumbnail_effects_need_owner Demo.cfg (Demo.env sc)
              (Demo.request "alice" sc) Demo.world0
              (or_intror (or_intror (ex_intro _ "png" Hfile))))
    as (videoID & token & row & Hid & Htok & Hjwt & Hrow).
  vm_compute in Hid, Htok. injection Hid as <-. injection Htok as <-.
  assert (Hr : Some row = Some Demo.video0)
    by (rewrite <- Hrow; vm_compute; reflexivity).
  injection Hr as ->. exact Hjwt.
Defined.

(** ** The worlds the video handler can leave *)

(** Either the video handler turns the request down before it creates its
    temporary file and leaves the world as it was, or the request came
    with a token of the owner of the record and an mp4 part, and the
    answer and the world follow the outcomes of the copy, the probe, the
    remux, the opening of its output, the random source, the bucket and
    the store, in this order. *)
Lemma video_world_shape (cfg : apiConfig) (env : Env) (r : Request)
    (w : World) :
  let res := handlerUploadVideo cfg env r w in
  (snd res = w /\ status (fst res) <> StatusOK /\ rejection (fst res))
  \/ exists videoID token row header,
       uuid_Parse env (PathValue r "videoID") = Ok videoID
       /\ auth_GetBearerToken env (Header r) = Ok token
       /\ auth_ValidateJWT env token (jwtSecret cfg) = Ok (row_UserID row)
       /\ db w !! videoID = Some row
       /\ FormFile env r "video" = Ok header
       /\ mime_ParseMediaType env (declared_type header) = Ok "video/mp4"
       /\ let tmp := tmpName env in
          let out := tmp ++ ".processing" in
          let failed := respondWithError StatusInternalServerError in
          match Copy_temp_short env with
          | Some k =>
              res = (failed "Couldn't save file",
                     os_Remove tmp
                       (set_fs w (<[tmp := firstn k (fh_content header)]> (fs w))))
          | None =>
            match getVideoAspectRatio env tmp
                    (set_fs w (<[tmp := fh_content header]> (fs w))) with
            | (Err _, w2) =>
                res = (failed "Couldn't get video aspect ratio", os_Remove tmp w2)
            | (Ok aspect, w2) =>
              match processVideoForFastStart env tmp w2 with
              | (Err _, w3) =>
                  res = (failed "Couldn't process video", os_Remove tmp w3)
              | (Ok _, w3) =>
                let clean := fun w' => os_Remove tmp (os_Remove out w') in
                match os_OpenFile env out w3 with
                | Err _ => res = (failed "Couldn't process video", clean w3)
                | Ok body =>
                  let key := video_key env (choosePrefix aspect) in
                  let v := set_VideoURL (to_Video videoID row)
                             (s3CfDistribution cfg ++ "/" ++ key) in
                  let w4 :=
                    set_s3 w3
                      (<[(s3Bucket cfg, key) :=
                           {| o_Body := body; o_ContentType := "video/mp4" |}]>
                         (s3 w3)) in
                  if rand_fails env then
                    res = (failed "Couldn't generate random bytes", clean w3)
                  else if PutObject_fails env then
                    res = (failed "Couldn't upload file to S3", clean w3)
                  else if UpdateVideo_fails env then
                    res = (failed "Couldn't update video", clean w4)
                  else
                    db w3 = db w /\ s3 w3 = s3 w
                    /\ res = (respondWithJSON StatusOK (PVideo v),
                              clean (set_db w4 (<[videoID := to_row v]> (db w))))
                end
              end
            end
          end.
Proof.
  unfold handlerUploadVideo, declared_type, video_key. cbn zeta.
  destruct (uuid_Parse env _) as [videoID|] eqn:E1; [|no_effect].
  destruct (auth_GetBearerToken env _) as [token|] eqn:E2; [|no_effect].
  destruct (auth_ValidateJWT env _ _) as [userID|] eqn:E3; [|no_effect].
  unfold GetVideo.
  destruct (GetVideo_fails env); [no_effect|].
  destruct (db w !! videoID) as [row|] eqn:E4; [|no_effect].
  cbn [UserID to_Video].
  destruct (N.eqb_spec (row_UserID row) userID) as [Hown|Hown]; cbn [negb];
    [|no_effect].
  destruct (FormFile env r _) as [header|] eqn:E6; [|no_effect].
  destruct (mime_ParseMediaType env _) as [mediaType|] eqn:E7; [|no_effect].
  destruct (String.eqb_spec mediaType "video/mp4") as [->|]; cbn [negb];
    [|no_effect].
  unfold os_CreateTemp. cbn [String.eqb]. fold (tmpName env).
  destruct (CreateTemp_fails env); [no_effect|].
  right. exists videoID, token, row, header. subst userID.
  repeat (split; [first [reflexivity | assumption]|]).
  unfold defer, io_Copy. cbn [fst snd].
  destruct (Copy_temp_short env) as [k|]; rewrite write_created;
    [reflexivity|].
  pose proof (getVideoAspectRatio_frame env (tmpName env)
                (set_fs w (<[tmpName env := fh_content header]> (fs w))))
    as (Hd2 & Hs2 & _).
  destruct (getVideoAspectRatio env _ _) as [[aspect|e] w2]; [|reflexivity].
  cbn [snd set_fs db s3] in Hd2, Hs2.
  pose proof (processVideoForFastStart_frame env (tmpName env) w2)
    as (Hd3 & Hs3 & _).
  destruct (processVideoForFastStart env _ w2) as [[processed|e] w3] eqn:E13;
    [|reflexivity].
  pose proof (processVideoForFastStart_name _ _ _ _ _ E13). subst processed.
  cbn [fst snd] in *.
  destruct (os_OpenFile env _ w3) as [body|]; [|reflexivity].
  unfold rand_Read.
  change (map (rand_source env) (seq 0 32)) with (drawn env).
  destruct (rand_fails env); [reflexivity|].
  unfold PutObject.
  destruct (PutObject_fails env); [reflexivity|].
  unfold UpdateVideo. cbn [ID set_VideoURL to_Video db set_s3].
  destruct (UpdateVideo_fails env); [reflexivity|].
  rewrite Hd3, Hd2, E4. cbn [fst snd].
  split; [congruence|]. split; [congruence|]. reflexivity.
Qed.

Lemma append_cons (c : ascii) (s t : string) :
  String c s ++ t = String c (s ++ t).
Proof. reflexivity. Qed.

Lemma append_inv_head (s a b : string) : s ++ a = s ++ b -> a = b.
Proof.
  induction s as [|c s IH]; [auto|].
  rewrite !append_cons. intros [= H]. auto.
Qed.

Lemma append_length (s t : string) :
  String.length (s ++ t) = String.length s + String.length t.
Proof.
  induction s as [|c s IH]; [reflexivity|].
  rewrite append_cons. cbn [String.length]. now rewrite IH.
Qed.

Lemma tmp_is_not_out (s : string) : s <> s ++ ".processing".
Proof.
  intros H. apply (f_equal String.length) in H.
  rewrite append_length in H. cbn [String.length] in H. lia.
Qed.

Lemma choosePrefix_among (a : string) : In (choosePrefix a) prefixes.
Proof.
  unfold choosePrefix, prefixes.
  destruct (a =? "16:9"); [left; reflexivity|].
  destruct (a =? "9:16"); [right; left; reflexivity|].
  right; right; left; reflexivity.
Qed.

Lemma processVideoForFastStart_fs (env : Env) (filePath : string) (w : World) :
  fs (snd (processVideoForFastStart env filePath w))
  = fs_after (exec env "ffmpeg" (snd (ffmpeg_cmd filePath)) (fs w)).
Proof.
  unfold processVideoForFastStart, exec_Run, ffmpeg_cmd. cbn [snd].
  destruct (exit_code _ =? 0)%Z; reflexivity.
Qed.

(** X4.  A video request that is answered with 200, or that changes a
    record, puts an object, or runs a tool, has an identifier that parses,
    a bearer token that validates, a user who is the owner of the record
    of that identifier, and a part that declares [video/mp4]. *)
Theorem video_effects_need_owner (cfg : apiConfig) (env : Env)
    (r : Request) (w : World) :
  let res := handlerUploadVideo cfg env r w in
  status (fst res) = StatusOK
  \/ db (snd res) <> db w
  \/ s3 (snd res) <> s3 w
  \/ cmds (snd res) <> cmds w ->
  exists videoID token row header,
    uuid_Parse env (PathValue r "videoID") = Ok videoID
    /\ auth_GetBearerToken env (Header r) = Ok token
    /\ auth_ValidateJWT env token (jwtSecret cfg) = Ok (row_UserID row)
    /\ db w !! videoID = Some row
    /\ FormFile env r "video" = Ok header
    /\ mime_ParseMediaType env (declared_type header) = Ok "video/mp4".
Proof.
  intros res Heff.
  destruct (video_world_shape cfg env r w)
    as [(Hw & Hbad & _) | (videoID & token & row & header & Hid & Htok & Hjwt
                     & Hrow & Hpart & Hmt & _)].
  - fold res in Hw, Hbad. exfalso.
    destruct Heff as [Hok | [Hne | [Hne | Hne]]];
      [now apply Hbad | apply Hne; now rewrite Hw ..].
  - eauto 10.
Qed.

Lemma video_effects_need_owner_witness :
  let sc := Demo.video "video/mp4" (bytes_of_string "clip")
              [Demo.stream 1080 1920 (Some "9:16")] in
  cmds (snd (Demo.run_video "alice" sc)) <> cmds Demo.world0
  /\ auth_ValidateJWT (Demo.env sc) "alice" (jwtSecret Demo.cfg)
     = Ok (row_UserID Demo.video0)
  /\ cmds (snd (Demo.run_video "bob" sc)) = cmds Demo.world0
  /\ fst (Demo.run_video "bob" sc)
     = respondWithError StatusUnauthorized "User does not own video".
Proof.
  intros sc.
  assert (Hrun : cmds (snd (Demo.run_video "alice" sc)) <> cmds Demo.world0)
    by (vm_compute; discriminate).
  split; [exact Hrun|].
  split; [|split; vm_compute; reflexivity].
  destruct (video_effects_need_owner Demo.cfg (Demo.env sc)
              (Demo.request "alice" sc) Demo.world0
              (or_intror (or_intror (or_intror Hrun))))
    as (videoID & token & row & header & Hid & Htok & Hjwt & Hrow & _).
  vm_compute in Hid, Htok. injection Hid as <-. injection Htok as <-.
  assert (Hr : Some row = Some Demo.video0)
    by (rewrite <- Hrow; vm_compute; reflexivity).
  injection Hr as ->. exact Hjwt.
Defined.

(** X5.  On every return of the video handler that follows the creation
    of its temporary file, that file is gone; after an answer of 200 the
    output of the remux is gone as well. *)
Theorem video_temporary_files_removed (cfg : apiConfig) (env : Env)
    (r : Request) (w : World) :
  let res := handlerUploadVideo cfg env r w in
  (snd res = w \/ fs (snd res) !! tmpName env = None)
  /\ (status (fst res) = StatusOK ->
      fs (snd res) !! tmpName env = None
      /\ fs (snd res) !! (tmpName env ++ ".processing") = None).
Proof.
  intros res.
  destruct (video_world_shape cfg env r w)
    as [(Hw & Hbad & _) | (videoID & token & row & header & _ & _ & _ & _ & _ & _
                     & Hshape)]; fold res in Hw, Hbad || fold res in Hshape.
  { split; [now left|]. intros Hok. now destruct Hbad. }
  cbn zeta in Hshape.
  assert (Hclean : forall w',
             fs (os_Remove (tmpName env)
                   (os_Remove (tmpName env ++ ".processing") w'))
             !! tmpName env = None
             /\ fs (os_Remove (tmpName env)
                      (os_Remove (tmpName env ++ ".processing") w'))
                !! (tmpName env ++ ".processing") = None).
  { intros w'. cbn [os_Remove set_fs fs]. split.
    - apply lookup_delete_eq.
    - rewrite lookup_delete_ne by apply tmp_is_not_out.
      apply lookup_delete_eq. }
  assert (Hrm : forall w', fs (os_Remove (tmpName env) w') !! tmpName env = None).
  { intros w'. cbn [os_Remove set_fs fs]. apply lookup_delete_eq. }
  repeat case_match; destruct_and?; subst res;
    match goal with H : handlerUploadVideo _ _ _ _ = _ |- _ => rewrite H end;
    cbn [fst snd status respondWithError respondWithJSON];
    (split; [right; first [apply Hrm | apply Hclean]
            | first [intros Hok; discriminate Hok | intros _; apply Hclean]]).
Qed.

(** ** When a tool fails *)




Lemma remux_fails (env : Env) :
  (forall args f, exit_code (exec env "ffmpeg" args f) <> 0%Z) ->
  forall path w, exists e w', processVideoForFastStart env path w = (Err e, w').
Proof.
  intros H path w. unfold processVideoForFastStart, exec_Run.
  destruct (Z.eqb_spec (exit_code (exec env "ffmpeg"
              ["-i"; path; "-c"; "copy"; "-movflags"; "faststart"; "-f"; "mp4";
               path ++ ".processing"] (fs w))) 0) as [Hz|Hz]; [|eauto].
  now destruct (H _ _ Hz).
Qed.

(** X7.  If the remuxer exits with a status other than zero, the video
    handler answers no request with 200, puts no object and changes no
    record.  A request that reached the remux is answered with the 500 of
    the processing step; its temporary file is removed, but whatever the
    remuxer left at its output path stays on disk. *)
Theorem video_remux_failure (cfg : apiConfig) (env : Env) (r : Request)
    (w : World) :
  (forall args f, exit_code (exec env "ffmpeg" args f) <> 0%Z) ->
  let res := handlerUploadVideo cfg env r w in
  status (fst res) <> StatusOK
  /\ s3 (snd res) = s3 w
  /\ db (snd res) = db w
  /\ (In (ffmpeg_cmd (tmpName env)) (cmds (snd res)) ->
      ~ In (ffmpeg_cmd (tmpName env)) (cmds w) ->
      exists header,
        FormFile env r "video" = Ok header
        /\ let w2 := snd (getVideoAspectRatio env (tmpName env)
                            (set_fs w (<[tmpName env := fh_content header]>
                                         (fs w)))) in
           fst res = respondWithError StatusInternalServerError
                       "Couldn't process video"
           /\ fs (snd res) !! tmpName env = None
           /\ fs (snd res) !! (tmpName env ++ ".processing")
              = fs_after (exec env "ffmpeg" (snd (ffmpeg_cmd (tmpName env)))
                            (fs w2))
                !! (tmpName env ++ ".processing")).
Proof.
  intros Hfail res.
  destruct (video_world_shape cfg env r w)
    as [(Hw & Hbad & _) | (videoID & token & row & header & _ & _ & _ & _ & Hpart
                     & _ & Hshape)]; fold res in Hw, Hbad || fold res in Hshape.
  { rewrite Hw.
    split_and!; [exact Hbad | reflexivity | reflexivity |].
    intros Hin Hnot. now destruct Hnot. }
  cbn zeta in Hshape.
  destruct (Copy_temp_short env) as [k|].
  { rewrite Hshape. cbn [fst snd os_Remove set_fs s3 db cmds status
                           respondWithError].
    split_and!; [discriminate | reflexivity | reflexivity |].
    intros Hin Hnot. now destruct Hnot. }
  pose proof (getVideoAspectRatio_frame env (tmpName env)
                (set_fs w (<[tmpName env := fh_content header]> (fs w))))
    as (Hd2 & Hs2 & Hc2).
  destruct (getVideoAspectRatio env (tmpName env) _) as [[aspect|e] w2] eqn:Eg.
  2:{ rewrite Hshape. cbn [fst snd os_Remove set_fs s3 db cmds status
                             respondWithError] in *.
      split_and!; [discriminate | exact Hs2 | exact Hd2 |]. intros Hin Hnot.
      rewrite Hc2 in Hin. apply in_app_or in Hin as [Hin | [Hin | []]];
        [now destruct Hnot | discriminate Hin]. }
  cbn [snd set_fs s3 db cmds] in Hd2, Hs2, Hc2.
  pose proof (processVideoForFastStart_frame env (tmpName env) w2)
    as (Hd3 & Hs3 & _).
  pose proof (processVideoForFastStart_fs env (tmpName env) w2) as Hfs.
  destruct (remux_fails env Hfail (tmpName env) w2) as (e & w3 & E).
  rewrite E in Hshape, Hd3, Hs3, Hfs. cbn [snd] in Hd3, Hs3, Hfs.
  rewrite Hshape.
  cbn [fst snd os_Remove set_fs s3 db cmds fs status respondWithError].
  split_and!; [discriminate | congruence | congruence |].
  intros _ _. exists header. split; [exact Hpart|]. cbn zeta.
  split; [reflexivity|]. split; [apply lookup_delete_eq|].
  rewrite lookup_delete_ne by apply tmp_is_not_out.
  rewrite Eg. cbn [snd]. now rewrite Hfs.
Qed.

Lemma video_remux_failure_witness :
  (forall args f,
      exit_code (exec (with_tools (Demo.env Faulty.clip) Faulty.no_remux
                         (json_Unmarshal (Demo.env Faulty.clip)))
                   "ffmpeg" args f) <> 0%Z)
  /\ fst (Faulty.run Faulty.no_remux)
     = respondWithError StatusInternalServerError "Couldn't process video"
  /\ fs (snd (Faulty.run Faulty.no_remux)) !! "/tmp/video.mp42750139" = None
  /\ fs (snd (Faulty.run Faulty.no_remux))
     !! "/tmp/video.mp42750139.processing" = Some (bytes_of_string "ftyp").
Proof.
  assert (Hrun : forall args f,
             exit_code (exec (with_tools (Demo.env Faulty.clip) Faulty.no_remux
                                (json_Unmarshal (Demo.env Faulty.clip)))
                          "ffmpeg" args f) <> 0%Z)
    by (intros args f; cbn; discriminate).
  split; [exact Hrun|].
  destruct (video_remux_failure Demo.cfg _ (Demo.request "alice" Faulty.clip)
              Demo.world0 Hrun) as (_ & _ & _ & Hreached).
  destruct Hreached as (header & _ & Hres & Htmp & Hout).
  - vm_compute. right. left. reflexivity.
  - cbn. tauto.
  - split; [exact Hres|]. split; [exact Htmp|].
    vm_compute. reflexivity.
Defined.

(** ** What the video handler leaves alone *)

(** X8.  The video handler changes no record but the one the request
    names, and that one only when it answers 200; it removes no object
    from the bucket and puts none but under the configured bucket, at the
    key made of one of the three prefixes and the bytes drawn. *)
Theorem video_frame (cfg : apiConfig) (env : Env) (r : Request) (w : World) :
  let res := handlerUploadVideo cfg env r w in
  (forall id,
      uuid_Parse env (PathValue r "videoID") <> Ok id ->
      db (snd res) !! id = db w !! id)
  /\ (status (fst res) <> StatusOK -> db (snd res) = db w)
  /\ (forall bk, is_Some (s3 w !! bk) -> is_Some (s3 (snd res) !! bk))
  /\ (forall bk,
         (forall prefix, In prefix prefixes ->
                         bk <> (s3Bucket cfg, video_key env prefix)) ->
         s3 (snd res) !! bk = s3 w !! bk).
Proof.
  intros res.
  destruct (video_world_shape cfg env r w)
    as [(Hw & Hbad & _) | (videoID & token & row & header & Hid & _ & _ & _ & _
                     & _ & Hshape)]; fold res in Hw, Hbad || fold res in Hshape.
  { rewrite Hw. split_and!; auto. }
  cbn zeta in Hshape.
  destruct (Copy_temp_short env) as [k|].
  { rewrite Hshape. cbn [fst snd os_Remove set_fs s3 db]. split_and!; auto. }
  pose proof (getVideoAspectRatio_frame env (tmpName env)
                (set_fs w (<[tmpName env := fh_content header]> (fs w))))
    as (Hd2 & Hs2 & _).
  destruct (getVideoAspectRatio env (tmpName env) _) as [[aspect|e] w2];
    cbn [snd set_fs s3 db] in Hd2, Hs2.
  2:{ rewrite Hshape. cbn [fst snd os_Remove set_fs s3 db].
      rewrite Hd2, Hs2. split_and!; auto. }
  pose proof (processVideoForFastStart_frame env (tmpName env) w2)
    as (Hd3 & Hs3 & _).
  destruct (processVideoForFastStart env (tmpName env) w2) as [[out|e] w3];
    cbn [snd] in Hd3, Hs3.
  2:{ rewrite Hshape. cbn [fst snd os_Remove set_fs s3 db].
      rewrite Hd3, Hs3, Hd2, Hs2. split_and!; auto. }
  assert (Hput : forall (body : list byte) bk,
             (forall prefix, In prefix prefixes ->
                             bk <> (s3Bucket cfg, video_key env prefix)) ->
             <[(s3Bucket cfg, video_key env (choosePrefix aspect)) :=
                 {| o_Body := body; o_ContentType := "video/mp4" |}]> (s3 w)
             !! bk = s3 w !! bk).
  { intros body bk Hne. rewrite lookup_insert_ne; [reflexivity|].
    intros Heq. exact (Hne _ (choosePrefix_among aspect) (eq_sym Heq)). }
  assert (Hkeep : forall (body : list byte) bk,
             is_Some (s3 w !! bk) ->
             is_Some (<[(s3Bucket cfg, video_key env (choosePrefix aspect)) :=
                          {| o_Body := body; o_ContentType := "video/mp4" |}]>
                        (s3 w) !! bk)).
  { intros body bk Hsome.
    destruct (decide ((s3Bucket cfg, video_key env (choosePrefix aspect)) = bk))
      as [<-|Hne]; [rewrite lookup_insert_eq; eauto|].
    now rewrite lookup_insert_ne. }
  destruct (os_OpenFile env _ w3) as [body|].
  2:{ rewrite Hshape. cbn [fst snd os_Remove set_fs s3 db].
      rewrite Hd3, Hs3, Hd2, Hs2. split_and!; auto. }
  destruct (rand_fails env).
  { rewrite Hshape. cbn [fst snd os_Remove set_fs s3 db].
    rewrite Hd3, Hs3, Hd2, Hs2. split_and!; auto. }
  destruct (PutObject_fails env).
  { rewrite Hshape. cbn [fst snd os_Remove set_fs s3 db].
    rewrite Hd3, Hs3, Hd2, Hs2. split_and!; auto. }
  destruct (UpdateVideo_fails env).
  { rewrite Hshape. cbn [fst snd os_Remove set_fs set_s3 s3 db].
    rewrite Hd3, Hs3, Hd2, Hs2. split_and!; auto. }
  destruct Hshape as (_ & _ & Hres). rewrite Hres.
  cbn [fst snd os_Remove set_fs set_s3 set_db s3 db].
  rewrite Hs3, Hs2. split_and!; auto.
  - intros id Hne. rewrite lookup_insert_ne; [reflexivity|].
    intros ->. now apply Hne.
  - intros Hbad. now destruct Hbad.
Qed.

(** ** What a 200 of the video handler stands for *)

(** X9.  After a video upload answered with 200, the record named by the
    request has the distribution base, a slash and the key of the object
    as its video URL, and its owner and thumbnail URL as before; the
    response carries that record; and the object under that key has the
    content type [video/mp4] and, byte for byte, the content the remuxer
    left at its output path. *)
Theorem video_success_record (cfg : apiConfig) (env : Env) (r : Request)
    (w : World) :
  let res := handlerUploadVideo cfg env r w in
  status (fst res) = StatusOK ->
  exists videoID row header aspect w2 body,
    uuid_Parse env (PathValue r "videoID") = Ok videoID
    /\ db w !! videoID = Some row
    /\ FormFile env r "video" = Ok header
    /\ getVideoAspectRatio env (tmpName env)
         (set_fs w (<[tmpName env := fh_content header]> (fs w)))
       = (Ok aspect, w2)
    /\ fs_after (exec env "ffmpeg" (snd (ffmpeg_cmd (tmpName env))) (fs w2))
       !! (tmpName env ++ ".processing") = Some body
    /\ let key := video_key env (choosePrefix aspect) in
       let row' := {| row_UserID := row_UserID row;
                      row_ThumbnailURL := row_ThumbnailURL row;
                      row_VideoURL := Some (s3CfDistribution cfg ++ "/" ++ key) |} in
       db (snd res) = <[videoID := row']> (db w)
       /\ fst res = respondWithJSON StatusOK (PVideo (to_Video videoID row'))
       /\ s3 (snd res) !! (s3Bucket cfg, key)
          = Some {| o_Body := body; o_ContentType := "video/mp4" |}.
Proof.
  intros res Hok.
  destruct (video_success_inv cfg env r w Hok)
    as (videoID & token & userID & row & header & aspect & w2 & w3 & body
        & Hid & _ & _ & Hrow & _ & Hpart & _ & Hprobe & Hremux & Hopen & _
        & Hres & Hdb & Hs3).
  exists videoID, row, header, aspect, w2, body.
  split; [exact Hid|]. split; [exact Hrow|]. split; [exact Hpart|].
  split; [exact Hprobe|]. split.
  - pose proof (processVideoForFastStart_fs env (tmpName env) w2) as Hfs.
    rewrite Hremux in Hfs. cbn [snd] in Hfs. rewrite <- Hfs.
    unfold os_OpenFile in Hopen.
    destruct (OpenFile_fails env); [discriminate|].
    destruct (fs w3 !! (tmpName env ++ ".processing")); congruence.
  - cbn zeta. subst res. unfold video_key.
    split; [exact Hdb|]. split; [exact Hres|].
    rewrite Hs3. apply lookup_insert_eq.
Qed.

Lemma video_success_record_witness :
  let sc := Demo.video "video/mp4" (bytes_of_string "clip")
              [Demo.stream 1080 1920 (Some "9:16")] in
  let res := Demo.run_video "alice" sc in
  status (fst res) = StatusOK
  /\ o_Body <$> s3 (snd res)
                !! ("tubely-videos",
                    "portrait/CzBVep_E6Q4zWH2ix-wRNluApcrvFDleg6jN8hc8YYY=.mp4")
     = Some (bytes_of_string "clip").
Proof.
  intros sc res.
  assert (Hok : status (fst res) = StatusOK) by (vm_compute; reflexivity).
  split; [exact Hok|].
  destruct (video_success_record Demo.cfg (Demo.env sc)
              (Demo.request "alice" sc) Demo.world0 Hok)
    as (videoID & row & header & aspect & w2 & body & _ & _ & _ & Hprobe & _
        & _ & _ & Hs3).
  assert (Ha : Ok aspect = Ok "9:16").
  { change (Ok aspect)
      with (fst (@Ok string aspect, w2)). rewrite <- Hprobe.
    vm_compute. reflexivity. }
  injection Ha as ->.
  vm_compute. reflexivity.
Defined.

Lemma choosePrefix_exact (dar : string) :
  (choosePrefix dar = "landscape" <-> dar = "16:9")
  /\ (choosePrefix dar = "portrait" <-> dar = "9:16")
  /\ (choosePrefix dar = "other" <-> dar <> "16:9" /\ dar <> "9:16").
Proof.
  unfold choosePrefix.
  destruct (String.eqb_spec dar "16:9") as [->|H1].
  { repeat split; try discriminate; try reflexivity; intros [H _];
      now destruct H. }
  destruct (String.eqb_spec dar "9:16") as [->|H2].
  { repeat split; try discriminate; try reflexivity; intros [_ H];
      now destruct H. }
  repeat split; try discriminate; auto; intros ->; congruence.
Qed.

Lemma video_key_prefix (env : Env) (p1 p2 : string) :
  In p1 prefixes -> In p2 prefixes ->
  video_key env p1 = video_key env p2 -> p1 = p2.
Proof.
  unfold prefixes, video_key.
  intros [<- | [<- | [<- | []]]] [<- | [<- | [<- | []]]] H;
    try reflexivity; unfold String.append in H; discriminate H.
Qed.

(** X10.  The prefix is chosen by exact comparison of the first stream's
    display aspect ratio.  Let the request carry the part [header], and
    let the probe that the handler runs on its copy of the part exit with
    status zero and print an output that decodes to the stream [s] and
    others after it.  Then the URL of a video upload answered with 200 is
    under [landscape/] exactly when the ratio of [s] is the string [16:9],
    under [portrait/] exactly when it is [9:16], and under [other/] in
    every other case, the empty string included. *)
Theorem video_prefix_exact (cfg : apiConfig) (env : Env) (r : Request)
    (w : World) (header : FileHeader) (s : RawStream) (rest : list RawStream) :
  FormFile env r "video" = Ok header ->
  exit_code (probe_outcome env w header) = 0%Z ->
  json_Unmarshal env (stdout (probe_outcome env w header)) = Ok (s :: rest) ->
  let res := handlerUploadVideo cfg env r w in
  let dar := DisplayAspectRatio (decode_stream s) in
  let url := fun prefix =>
    Some (s3CfDistribution cfg ++ "/" ++ video_key env prefix) in
  status (fst res) = StatusOK ->
  exists v,
    fst res = respondWithJSON StatusOK (PVideo v)
    /\ (VideoURL v = url "landscape" <-> dar = "16:9")
    /\ (VideoURL v = url "portrait" <-> dar = "9:16")
    /\ (VideoURL v = url "other" <-> dar <> "16:9" /\ dar <> "9:16").
Proof.
  intros Hpart Hrun Hsays res dar url Hok.
  destruct (video_success_key cfg env r w header s rest Hpart Hrun Hsays Hok)
    as (_ & v & Hres & Hurl).
  fold dar in Hurl. exists v. split; [exact Hres|].
  assert (Hiff : forall p, In p prefixes ->
                           (VideoURL v = url p <-> choosePrefix dar = p)).
  { intros p Hp. rewrite Hurl. unfold url. split.
    - intros [= H]. apply append_inv_head, append_inv_head in H.
      apply (video_key_prefix env _ _ (choosePrefix_among dar) Hp H).
    - intros <-. reflexivity. }
  destruct (choosePrefix_exact dar) as (Hl & Hp & Ho).
  rewrite (Hiff "landscape"), (Hiff "portrait"), (Hiff "other");
    unfold prefixes; cbn [In]; auto 6.
Qed.

Lemma video_prefix_exact_witness :
  let ratios := "1920:1080" in
  let part := Demo.part (Studio.upload ratios) in
  let probe := probe_outcome (Studio.env ratios) Demo.world0 part in
  let res := Studio.run ratios in
  FormFile (Studio.env ratios) (Studio.request ratios) "video" = Ok part
  /\ exit_code probe = 0%Z
  /\ stdout probe = ratios
  /\ json_Unmarshal (Studio.env ratios) (stdout probe)
     = Ok [Studio.stream_of "1920:1080"]
  /\ status (fst res) = StatusOK
  /\ exists v, fst res = respondWithJSON StatusOK (PVideo v)
               /\ VideoURL v
                  = Some "https://d1234.cloudfront.net/other/CzBVep_E6Q4zWH2ix-wRNluApcrvFDleg6jN8hc8YYY=.mp4".
Proof.
  intros ratios part probe res.
  assert (Hpart : FormFile (Studio.env ratios) (Studio.request ratios) "video"
                  = Ok part) by reflexivity.
  assert (Hrun : exit_code probe = 0%Z) by (vm_compute; reflexivity).
  assert (Hsays : json_Unmarshal (Studio.env ratios) (stdout probe)
                  = Ok [Studio.stream_of "1920:1080"])
    by (vm_compute; reflexivity).
  assert (Hok : status (fst res) = StatusOK) by (vm_compute; reflexivity).
  split; [exact Hpart|]. split; [exact Hrun|].
  split; [vm_compute; reflexivity|]. split; [exact Hsays|].
  split; [exact Hok|].
  destruct (video_prefix_exact Demo.cfg (Studio.env ratios)
              (Studio.request ratios) Demo.world0 part _ _
              Hpart Hrun Hsays Hok) as (v & Hres & _ & _ & Hother).
  exists v. split; [exact Hres|].
  apply Hother. split; discriminate.
Defined.

(** ** Responses *)

(** X11.  Both handlers answer with 200, 400, 401 or 500 and nothing
    else; the body is an error message exactly when the status is not
    200; the 200 of the thumbnail handler carries the empty object, the
    200 of the video handler a record whose video URL is set. *)
Theorem responses_well_formed (cfg : apiConfig) (env : Env) (r : Request)
    (w : World) :
  let thumb := fst (handlerUploadThumbnail cfg env r w) in
  let video := fst (handlerUploadVideo cfg env r w) in
  (In (status thumb) statuses
   /\ (status thumb <> StatusOK <-> is_error (payload thumb) = true)
   /\ (status thumb = StatusOK <-> payload thumb = PEmpty))
  /\ (In (status video) statuses
      /\ (status video <> StatusOK <-> is_error (payload video) = true)
      /\ (status video = StatusOK <->
          exists v url, payload video = PVideo v /\ VideoURL v = Some url)).
Proof.
  cbn zeta. split.
  - destruct (thumbnail_world_shape cfg env r w)
      as [(_ & Hbad & Herr & Hin & _)
         | (videoID & token & header & row & ext & _ & _ & _ & _ & _ & _
            & [[_ Hres] | [_ Hres]])].
    + split; [right; exact Hin|].
      split; split; intros; try assumption; try tauto.
      destruct (payload (fst (handlerUploadThumbnail cfg env r w)));
        discriminate.
    + rewrite Hres. cbn. unfold statuses, StatusOK, StatusBadRequest, StatusUnauthorized,
        StatusInternalServerError.
      split; [tauto|]. split; split; intros; congruence.
    + rewrite Hres. cbn. unfold statuses, StatusOK, StatusBadRequest, StatusUnauthorized,
        StatusInternalServerError.
      split; [tauto|]. split; split; intros; congruence.
  - destruct (video_world_shape cfg env r w)
      as [(_ & Hbad & Herr & Hin & _)
         | (videoID & token & row & header & _ & _ & _ & _ & _ & _ & Hshape)].
    + split; [right; exact Hin|].
      split; split; intros; try assumption; try tauto.
      destruct H as (v & url & Hp & _). rewrite Hp in Herr. discriminate Herr.
    + cbn zeta in Hshape.
      repeat case_match; destruct_and?;
        match goal with
        | H : handlerUploadVideo _ _ _ _ = _ |- _ => rewrite H
        end;
        cbn; unfold statuses, StatusOK, StatusBadRequest, StatusUnauthorized,
          StatusInternalServerError;
        (split; [tauto|]); split; split; intros; try congruence;
        try (match goal with
             | H : ex _ |- _ => destruct H as (? & ? & ? & ?); congruence
             end);
        eexists _, _; split; reflexivity.
Qed.

(** ** The configuration *)

(** X12.  The thumbnail handler reads the signing secret, the assets root
    and the port, and nothing else of the configuration; the video handler
    reads the signing secret, the bucket and the distribution base, and
    nothing else: two configurations that agree on these give the same
    response and the same world. *)
Theorem handlers_read_their_settings (c1 c2 : apiConfig) (env : Env)
    (r : Request) (w : World) :
  (same_for_thumbnail c1 c2 ->
   handlerUploadThumbnail c1 env r w = handlerUploadThumbnail c2 env r w)
  /\ (same_for_video c1 c2 ->
      handlerUploadVideo c1 env r w = handlerUploadVideo c2 env r w).
Proof.
  destruct c1 as [j1 a1 p1 b1 d1], c2 as [j2 a2 p2 b2 d2].
  unfold same_for_thumbnail, same_for_video. cbn.
  split; intros (-> & -> & ->); reflexivity.
Qed.

(** ** The encoding of names, further *)

Lemma EncodeToString_length (src : list byte) :
  String.length (base64.EncodeToString base64.RawURLEncoding src)
  = (4 * length src + 2) / 3
  /\ String.length (base64.EncodeToString base64.URLEncoding src)
     = 4 * ((length src + 2) / 3).
Proof.
  induction src as [| a | a b | a b c l [IHr IHp]] using list_ind_by3;
    try (split; reflexivity).
  cbn [base64.EncodeToString String.length length].
  rewrite IHr, IHp. split.
  - replace (4 * S (S (S (length l))) + 2) with ((4 * length l + 2) + 4 * 3)
      by lia.
    rewrite Nat.div_add by discriminate. lia.
  - replace (S (S (S (length l))) + 2) with ((length l + 2) + 1 * 3) by lia.
    rewrite Nat.div_add by discriminate. lia.
Qed.

(** Zero out, in a disjunction of bit fields, the fields that come from
    byte [y] and are empty whatever [y] is. *)
Ltac zero_out y :=
  repeat match goal with
  | |- context [N.lor ?p ?q] =>
      first
        [ let H := fresh in
          assert (H : p = 0%N) by (clear; destruct y; reflexivity);
          rewrite H, N.lor_0_l; clear H
        | let H := fresh in
          assert (H : q = 0%N) by (clear; destruct y; reflexivity);
          rewrite H, N.lor_0_r; clear H ]
  end.

Ltac spread :=
  repeat rewrite ?N.shiftr_lor, ?N.land_lor_distr_l, ?N.shiftl_lor.

(** The bytes of a group of three, back from its four symbols' indices. *)
Lemma group_decode (a b c : byte) :
  let val := N.lor (N.lor (N.shiftl (base64.u a) 16)
                      (N.shiftl (base64.u b) 8)) (base64.u c) in
  let s0 := N.land (N.shiftr val 18) 63 in
  let s1 := N.land (N.shiftr val 12) 63 in
  let s2 := N.land (N.shiftr val 6) 63 in
  let s3 := N.land val 63 in
  N.lor (N.shiftl s0 2) (N.shiftr s1 4) = base64.u a
  /\ N.lor (N.shiftl (N.land s1 15) 4) (N.shiftr s2 2) = base64.u b
  /\ N.lor (N.shiftl (N.land s2 3) 6) s3 = base64.u c.
Proof.
  cbn zeta. spread. split; [|split].
  - zero_out b. zero_out c. destruct a; reflexivity.
  - zero_out a. zero_out c. destruct b; reflexivity.
  - zero_out a. zero_out b. destruct c; reflexivity.
Qed.

Lemma tail2_decode (a b : byte) :
  let val := N.lor (N.shiftl (base64.u a) 16) (N.shiftl (base64.u b) 8) in
  let s0 := N.land (N.shiftr val 18) 63 in
  let s1 := N.land (N.shiftr val 12) 63 in
  let s2 := N.land (N.shiftr val 6) 63 in
  N.lor (N.shiftl s0 2) (N.shiftr s1 4) = base64.u a
  /\ N.lor (N.shiftl (N.land s1 15) 4) (N.shiftr s2 2) = base64.u b.
Proof.
  cbn zeta. spread. split.
  - zero_out b. destruct a; reflexivity.
  - zero_out a. destruct b; reflexivity.
Qed.

Lemma tail1_decode (a : byte) :
  let val := N.shiftl (base64.u a) 16 in
  let s0 := N.land (N.shiftr val 18) 63 in
  let s1 := N.land (N.shiftr val 12) 63 in
  N.lor (N.shiftl s0 2) (N.shiftr s1 4) = base64.u a.
Proof. destruct a; reflexivity. Qed.

Lemma u_inj (a b : byte) : base64.u a = base64.u b -> a = b.
Proof.
  unfold base64.u. intros H.
  assert (Hs : Some a = Some b)
    by (rewrite <- (Byte.of_to_N a), <- (Byte.of_to_N b); now rewrite H).
  now injection Hs.
Qed.

Lemma sym_inj (enc : base64.Encoding) (i j : N) :
  base64.encode enc = base64.encodeURL ->
  (i < 64)%N -> (j < 64)%N ->
  base64.sym enc i = base64.sym enc j -> i = j.
Proof.
  intros Henc Hi Hj. unfold base64.sym. rewrite Henc.
  set (at_ := fun k => match String.get k base64.encodeURL with
                       | Some c => c
                       | None => Ascii.zero
                       end).
  change (at_ (N.to_nat i) = at_ (N.to_nat j) -> i = j).
  assert (Hall : forallb (fun x =>
                   forallb (fun y =>
                     implb (Ascii.eqb (at_ x) (at_ y)) (Nat.eqb x y))
                     (seq 0 64)) (seq 0 64) = true)
    by (vm_compute; reflexivity).
  rewrite forallb_forall in Hall.
  specialize (Hall (N.to_nat i)). rewrite forallb_forall in Hall.
  intros Heq.
  assert (Hin : forall n, (n < 64)%N -> In (N.to_nat n) (seq 0 64))
    by (intros n Hn; apply in_seq; lia).
  specialize (Hall (Hin i Hi) (N.to_nat j) (Hin j Hj)).
  rewrite Heq, Ascii.eqb_refl in Hall. cbn in Hall.
  apply Nat.eqb_eq in Hall. lia.
Qed.

Section Injective.

Variable enc : base64.Encoding.
Hypothesis alphabet : base64.encode enc = base64.encodeURL.
Hypothesis padding :
  forall p, base64.padChar enc = Some p -> base64.url_char p = false.

Lemma sextet_eq (m n : N) :
  base64.sym enc (N.land m 63) = base64.sym enc (N.land n 63) ->
  N.land m 63 = N.land n 63.
Proof. apply sym_inj; auto using land63_lt. Qed.

Lemma pad_is_no_symbol (k : nat) (n : N) (rest : string) :
  base64.pad enc (S k) <> String (base64.sym enc (N.land n 63)) rest.
Proof.
  unfold base64.pad. destruct (base64.padChar enc) as [p|] eqn:Hp;
    [|discriminate].
  cbn. intros [= -> _].
  pose proof (sym_url_char enc _ alphabet (land63_lt n)) as Hs.
  rewrite (padding _ eq_refl) in Hs. discriminate Hs.
Qed.

Lemma EncodeToString_inj (s1 s2 : list byte) :
  base64.EncodeToString enc s1 = base64.EncodeToString enc s2 -> s1 = s2.
Proof.
  revert s2.
  induction s1 as [| a | a b | a b c l IH] using list_ind_by3;
    intros [|a' [|b' [|c' l']]]; cbn [base64.EncodeToString];
    try discriminate; try reflexivity; intros H;
    injection H; clear H; intros;
    repeat match goal with
           | E : base64.sym enc _ = base64.sym enc _ |- _ =>
               apply sextet_eq in E
           end;
    try (exfalso;
         match goal with
         | E : base64.pad enc _ = String _ _ |- _ =>
             now apply pad_is_no_symbol in E
         | E : String _ _ = base64.pad enc _ |- _ =>
             symmetry in E; now apply pad_is_no_symbol in E
         end).
  - f_equal. apply u_inj.
    rewrite <- (tail1_decode a), <- (tail1_decode a'). cbn zeta. congruence.
  - destruct (tail2_decode a b) as [Ha Hb], (tail2_decode a' b') as [Ha' Hb'].
    cbn zeta in *.
    f_equal; [|f_equal]; apply u_inj.
    + rewrite <- Ha, <- Ha'. congruence.
    + rewrite <- Hb, <- Hb'. congruence.
  - destruct (group_decode a b c) as (Ha & Hb & Hc),
             (group_decode a' b' c') as (Ha' & Hb' & Hc').
    cbn zeta in *.
    f_equal; [|f_equal; [|f_equal]]; try apply u_inj.
    + rewrite <- Ha, <- Ha'. congruence.
    + rewrite <- Hb, <- Hb'. congruence.
    + rewrite <- Hc, <- Hc'. congruence.
    + now apply IH.
Qed.

End Injective.

Lemma append_inv_len (a a' b b' : string) :
  String.length a = String.length a' ->
  a ++ b = a' ++ b' -> a = a' /\ b = b'.
Proof.
  revert a'. induction a as [|c a IH]; intros [|c' a'] Hlen H;
    try discriminate Hlen.
  - auto.
  - rewrite !append_cons in H. injection H as -> H.
    injection Hlen as Hlen. destruct (IH a' Hlen H) as [-> ->]. auto.
Qed.

Lemma drawn_length (env : Env) : length (drawn env) = 32.
Proof. unfold drawn. now rewrite length_map, length_seq. Qed.

(** X13.  The unpadded encoding of [n] bytes has [(4n + 2) / 3]
    characters and the padded one [4 ((n + 2) / 3)]; so the file name of
    a thumbnail is 43 characters, a dot and the extension, and the key of
    a video is the prefix, a slash, 44 characters and [.mp4]. *)
Theorem generated_name_lengths (env : Env) (src : list byte)
    (ext prefix : string) :
  String.length (base64.EncodeToString base64.RawURLEncoding src)
  = (4 * length src + 2) / 3
  /\ String.length (base64.EncodeToString base64.URLEncoding src)
     = 4 * ((length src + 2) / 3)
  /\ String.length (thumbnail_fileName env ext) = 44 + String.length ext
  /\ String.length (video_key env prefix) = String.length prefix + 49.
Proof.
  destruct (EncodeToString_length src) as [Hr Hp].
  destruct (EncodeToString_length (drawn env)) as [Hr32 Hp32].
  rewrite drawn_length in Hr32, Hp32.
  split; [exact Hr|]. split; [exact Hp|].
  unfold thumbnail_fileName, video_key.
  rewrite !append_length, Hr32, Hp32. cbn. lia.
Qed.

(** X14.  The encoding is injective, padded or not, so a generated name
    tells the bytes it was made from: two thumbnail file names are equal
    only if the bytes drawn and the extensions are, and two video keys
    only if the bytes drawn and the prefixes are. *)
Theorem generated_names_injective (env1 env2 : Env) (src1 src2 : list byte)
    (ext1 ext2 p1 p2 : string) :
  (base64.EncodeToString base64.RawURLEncoding src1
   = base64.EncodeToString base64.RawURLEncoding src2 -> src1 = src2)
  /\ (base64.EncodeToString base64.URLEncoding src1
      = base64.EncodeToString base64.URLEncoding src2 -> src1 = src2)
  /\ (thumbnail_fileName env1 ext1 = thumbnail_fileName env2 ext2 ->
      drawn env1 = drawn env2 /\ ext1 = ext2)
  /\ (In p1 prefixes -> In p2 prefixes ->
      video_key env1 p1 = video_key env2 p2 ->
      drawn env1 = drawn env2 /\ p1 = p2).
Proof.
  assert (Hraw : forall s1 s2,
             base64.EncodeToString base64.RawURLEncoding s1
             = base64.EncodeToString base64.RawURLEncoding s2 -> s1 = s2).
  { apply EncodeToString_inj; [reflexivity|]. intros p [=]. }
  assert (Hpad : forall s1 s2,
             base64.EncodeToString base64.URLEncoding s1
             = base64.EncodeToString base64.URLEncoding s2 -> s1 = s2).
  { apply EncodeToString_inj; [reflexivity|]. intros p [= <-]. reflexivity. }
  split; [apply Hraw|]. split; [apply Hpad|]. split.
  - unfold thumbnail_fileName. intros H.
    apply append_inv_len in H as [Hname Hext].
    + split; [now apply Hraw|]. now apply (append_inv_head ".").
    + destruct (EncodeToString_length (drawn env1)) as [-> _].
      destruct (EncodeToString_length (drawn env2)) as [-> _].
      now rewrite !drawn_length.
  - assert (Hsame : forall p,
               video_key env1 p = video_key env2 p -> drawn env1 = drawn env2).
    { unfold video_key. intros p H.
      apply append_inv_head, (append_inv_head "/") in H.
      apply append_inv_len in H as [Hname _]; [now apply Hpad|].
      destruct (EncodeToString_length (drawn env1)) as [_ ->].
      destruct (EncodeToString_length (drawn env2)) as [_ ->].
      now rewrite !drawn_length. }
    unfold prefixes.
    intros [<- | [<- | [<- | []]]] [<- | [<- | [<- | []]]] H;
      try (split; [exact (Hsame _ H)|reflexivity]);
      unfold video_key, String.append in H; discriminate H.
Qed.

(** ** The probe on its own *)

(** X15.  [getVideoAspectRatio] runs the probe once, with fixed
    arguments and the path last, and touches neither the store nor the
    bucket.  It returns a ratio exactly when the probe exits with status
    zero and its output decodes to at least one stream; the ratio is that
    of the first stream, the empty string if the stream has none, whatever
    the other streams and the width and height are. *)
Theorem aspect_ratio_contract (env : Env) (filePath : string) (w : World)
    (dar : string) :
  let o := exec env "ffprobe" (snd (ffprobe_cmd filePath)) (fs w) in
  let res := getVideoAspectRatio env filePath w in
  cmds (snd res) = (cmds w ++ [ffprobe_cmd filePath])%list
  /\ fs (snd res) = fs_after o
  /\ db (snd res) = db w
  /\ s3 (snd res) = s3 w
  /\ (fst res = Ok dar <->
      exit_code o = 0%Z
      /\ exists s rest,
           json_Unmarshal env (stdout o) = Ok (s :: rest)
           /\ dar = default "" (js_display_aspect_ratio s)).
Proof.
  unfold getVideoAspectRatio, exec_Run, ffprobe_cmd. cbn [snd]. cbn zeta.
  destruct (Z.eqb_spec
              (exit_code
                 (exec env "ffprobe"
                    ["-v"; "error"; "-print_format"; "json"; "-show_streams";
                     filePath] (fs w))) 0) as [Hz|Hz].
  - destruct (json_Unmarshal env _) as [[|s rest]|e] eqn:Hj;
      cbn [map length Nat.eqb fst snd log_cmd set_fs cmds fs db s3 nth
             decode_stream DisplayAspectRatio];
      split_and!; try reflexivity; split.
    + discriminate.
    + intros (_ & s & rest & [=] & _).
    + intros [= <-]. eauto.
    + intros (_ & s' & rest' & [= <- <-] & ->). reflexivity.
    + discriminate.
    + intros (_ & s & rest & [=] & _).
  - cbn [fst snd log_cmd set_fs cmds fs db s3].
    split_and!; try reflexivity; split; [discriminate|].
    intros [H _]. now destruct Hz.
Qed.

(** ** No rolling back *)

(** X16.  If the store refuses the update, both handlers answer 500 at
    that step and leave the record as it was, but do not take back what
    they stored: the thumbnail file stays under the assets root, and the
    object stays in the bucket. *)
Theorem no_roll_back (cfg : apiConfig) (env : Env) (r : Request) (w : World) :
  UpdateVideo_fails env = true ->
  let thumb := handlerUploadThumbnail cfg env r w in
  let video := handlerUploadVideo cfg env r w in
  (status (fst thumb) <> StatusOK
   /\ db (snd thumb) = db w
   /\ (snd thumb <> w ->
       fst thumb = respondWithError StatusInternalServerError
                     "Couldn't update video"
       /\ exists ext,
            is_Some (fs (snd thumb)
                     !! filepath_Join (assetsRoot cfg)
                          (thumbnail_fileName env ext))))
  /\ (status (fst video) <> StatusOK
      /\ db (snd video) = db w
      /\ (fst video = respondWithError StatusInternalServerError
                        "Couldn't update video" ->
          exists prefix,
            In prefix prefixes
            /\ o_ContentType <$> s3 (snd video)
                                 !! (s3Bucket cfg, video_key env prefix)
               = Some "video/mp4")).
Proof.
  intros Hdown. cbn zeta. split.
  - destruct (thumbnail_world_shape cfg env r w)
      as [(Hw & Hbad & _)
         | (videoID & token & header & row & ext & _ & _ & _ & _ & _ & _
            & [[_ Hres] | [Hup _]])]; [| |congruence].
    + rewrite Hw. split_and!; auto. intros Hne. now destruct Hne.
    + rewrite Hres. cbn [fst snd set_fs db fs status respondWithError].
      split_and!; [discriminate | reflexivity |]. intros _.
      split; [reflexivity|]. exists ext. rewrite lookup_insert_eq. eauto.
  - assert (Hbad : status (fst (handlerUploadVideo cfg env r w)) <> StatusOK).
    { destruct (video_world_shape cfg env r w)
        as [(_ & Hbad & _)
           | (videoID & token & row & header & _ & _ & _ & _ & _ & _ & Hshape)];
        [exact Hbad|].
      cbn zeta in Hshape. rewrite Hdown in Hshape.
      repeat case_match; rewrite Hshape; discriminate. }
    split; [exact Hbad|].
    split; [exact (video_error_keeps_store cfg env r w Hbad)|].
    intros Hres.
    destruct (video_world_shape cfg env r w)
      as [(_ & _ & _ & _ & Hmsg)
         | (videoID & token & row & header & _ & _ & _ & _ & _ & _ & Hshape)].
    + rewrite Hres in Hmsg. now destruct Hmsg.
    + cbn zeta in Hshape. rewrite Hdown in Hshape.
      repeat case_match; rewrite Hshape in Hres |- *; try discriminate Hres.
      eexists. split; [apply choosePrefix_among|].
      cbn [snd os_Remove set_fs set_s3 s3].
      rewrite lookup_insert_eq. reflexivity.
Qed.

Lemma no_roll_back_witness :
  let sc := Demo.thumbnail "image/png" None None in
  let res := handlerUploadThumbnail Demo.cfg (with_store_down (Demo.env sc))
               (Demo.request "alice" sc) Demo.world0 in
  UpdateVideo_fails (with_store_down (Demo.env sc)) = true
  /\ fst res = respondWithError StatusInternalServerError "Couldn't update video"
  /\ db (snd res) = db Demo.world0
  /\ fs (snd res) !! "./assets/CzBVep_E6Q4zWH2ix-wRNluApcrvFDleg6jN8hc8YYY.png"
     = Some (bytes_of_string "PNG-bytes").
Proof.
  intros sc res.
  destruct (no_roll_back Demo.cfg (with_store_down (Demo.env sc))
              (Demo.request "alice" sc) Demo.world0 eq_refl)
    as [(_ & Hdb & Hkept) _].
  split; [reflexivity|].
  destruct Hkept as [Hres _].
  - intros Heq. apply (f_equal fs) in Heq.
    apply (f_equal (fun m => m !! "./assets/CzBVep_E6Q4zWH2ix-wRNluApcrvFDleg6jN8hc8YYY.png")) in Heq.
    vm_compute in Heq. discriminate Heq.
  - split; [exact Hres|]. split; [exact Hdb|]. vm_compute. reflexivity.
Defined.

(** ** One upload after another *)

Lemma thumbnail_fileName_inj (env1 env2 : Env) (ext1 ext2 : string) :
  thumbnail_fileName env1 ext1 = thumbnail_fileName env2 ext2 ->
  drawn env1 = drawn env2.
Proof.
  unfold thumbnail_fileName. intros H.
  apply append_inv_len in H as [Hname _].
  - revert Hname. apply EncodeToString_inj; [reflexivity|]. intros p [=].
  - destruct (EncodeToString_length (drawn env1)) as [-> _].
    destruct (EncodeToString_length (drawn env2)) as [-> _].
    now rewrite !drawn_length.
Qed.

Lemma filepath_Join_inj (dir a b : string) :
  filepath_Join dir a = filepath_Join dir b -> a = b.
Proof.
  unfold filepath_Join. destruct (dir =? ""); [auto|].
  intros H. now apply append_inv_head, (append_inv_head "/") in H.
Qed.

(** X17.  A second thumbnail upload for the same video that draws other
    bytes writes another file and replaces the URL in the record; the file
    of the first upload stays on disk, unchanged and no longer referred
    to. *)
Theorem second_thumbnail_keeps_first_file (cfg : apiConfig) (env1 env2 : Env)
    (r1 r2 : Request) (w : World) :
  let res1 := handlerUploadThumbnail cfg env1 r1 w in
  let res2 := handlerUploadThumbnail cfg env2 r2 (snd res1) in
  status (fst res1) = StatusOK ->
  status (fst res2) = StatusOK ->
  uuid_Parse env1 (PathValue r1 "videoID")
  = uuid_Parse env2 (PathValue r2 "videoID") ->
  drawn env1 <> drawn env2 ->
  exists videoID ext1 ext2,
    uuid_Parse env2 (PathValue r2 "videoID") = Ok videoID
    /\ let f1 := filepath_Join (assetsRoot cfg) (thumbnail_fileName env1 ext1) in
       let f2 := filepath_Join (assetsRoot cfg) (thumbnail_fileName env2 ext2) in
       f1 <> f2
       /\ is_Some (fs (snd res1) !! f1)
       /\ fs (snd res2) !! f1 = fs (snd res1) !! f1
       /\ is_Some (fs (snd res2) !! f2)
       /\ row_ThumbnailURL <$> db (snd res1) !! videoID
          = Some (Some ("http://localhost:" ++ port cfg ++ "/assets/"
                        ++ thumbnail_fileName env1 ext1))
       /\ row_ThumbnailURL <$> db (snd res2) !! videoID
          = Some (Some ("http://localhost:" ++ port cfg ++ "/assets/"
                        ++ thumbnail_fileName env2 ext2)).
Proof.
  intros res1 res2 Hok1 Hok2 Hsame Hdiff.
  destruct (thumbnail_world_shape cfg env1 r1 w)
    as [(_ & Hbad & _)
       | (id1 & tok1 & hd1 & row1 & ext1 & Hid1 & _ & _ & _ & _ & _
          & [[_ Hres1] | [_ Hres1]])]; fold res1 in Hbad || fold res1 in Hres1.
  { now destruct Hbad. }
  { rewrite Hres1 in Hok1. discriminate Hok1. }
  destruct (thumbnail_world_shape cfg env2 r2 (snd res1))
    as [(_ & Hbad & _)
       | (id2 & tok2 & hd2 & row2 & ext2 & Hid2 & _ & _ & _ & _ & _
          & [[_ Hres2] | [_ Hres2]])]; fold res2 in Hbad || fold res2 in Hres2.
  { now destruct Hbad. }
  { rewrite Hres2 in Hok2. discriminate Hok2. }
  assert (id1 = id2) by congruence. subst id2.
  exists id1, ext1, ext2. split; [exact Hid2|]. cbn zeta.
  assert (Hne : filepath_Join (assetsRoot cfg) (thumbnail_fileName env1 ext1)
                <> filepath_Join (assetsRoot cfg) (thumbnail_fileName env2 ext2)).
  { intros Heq. apply filepath_Join_inj, thumbnail_fileName_inj in Heq.
    now destruct Hdiff. }
  split; [exact Hne|].
  rewrite Hres2. cbn [snd set_db set_fs fs db].
  rewrite Hres1. cbn [snd set_db set_fs fs db].
  rewrite !lookup_insert_eq.
  rewrite (lookup_insert_ne _ _ _ _ (not_eq_sym Hne)), lookup_insert_eq.
  split_and!; eauto.
Qed.

Lemma second_thumbnail_keeps_first_file_witness :
  let sc := Demo.thumbnail "image/png" None None in
  let env2 := with_rand (Demo.env sc) (fun _ => "A"%byte) in
  let res1 := Demo.run_thumbnail "alice" sc in
  let res2 := handlerUploadThumbnail Demo.cfg env2 (Demo.request "alice" sc)
                (snd res1) in
  drawn (Demo.env sc) <> drawn env2
  /\ status (fst res1) = StatusOK
  /\ status (fst res2) = StatusOK
  /\ fs (snd res2) !! "./assets/CzBVep_E6Q4zWH2ix-wRNluApcrvFDleg6jN8hc8YYY.png"
     = Some (bytes_of_string "PNG-bytes")
  /\ row_ThumbnailURL <$> db (snd res2) !! Demo.vid
     = Some (Some "http://localhost:8091/assets/QUFBQUFBQUFBQUFBQUFBQUFBQUFBQUFBQUFBQUFBQUE.png").
Proof.
  intros sc env2 res1 res2.
  assert (Hdiff : drawn (Demo.env sc) <> drawn env2)
    by (vm_compute; discriminate).
  assert (Hok1 : status (fst res1) = StatusOK) by (vm_compute; reflexivity).
  assert (Hok2 : status (fst res2) = StatusOK) by (vm_compute; reflexivity).
  destruct (second_thumbnail_keeps_first_file Demo.cfg (Demo.env sc) env2
              (Demo.request "alice" sc) (Demo.request "alice" sc) Demo.world0
              Hok1 Hok2 eq_refl Hdiff)
    as (videoID & ext1 & ext2 & _ & _).
  split_and!; auto; vm_compute; reflexivity.
Defined.

Lemma generated_names_injective_witness :
  let env1 := Demo.env (Demo.thumbnail "image/png" None None) in
  let env2 := with_rand env1 (fun _ => "A"%byte) in
  drawn env1 <> drawn env2
  /\ thumbnail_fileName env1 "png" <> thumbnail_fileName env2 "png"
  /\ video_key env1 "other" <> video_key env2 "other".
Proof.
  intros env1 env2.
  assert (Hdiff : drawn env1 <> drawn env2) by (vm_compute; discriminate).
  destruct (generated_names_injective env1 env2 [] [] "png" "png"
              "other" "other") as (_ & _ & Hthumb & Hkey).
  split; [exact Hdiff|]. split.
  - intros Heq. now destruct (Hthumb Heq).
  - intros Heq.
    assert (Hin : In "other" prefixes) by (right; right; left; reflexivity).
    now destruct (Hkey Hin Hin Heq).
Defined.

Lemma handlers_read_their_settings_witness :
  let sc := Demo.thumbnail "image/png" None None in
  let moved := {| jwtSecret := jwtSecret Demo.cfg;
                  assetsRoot := assetsRoot Demo.cfg;
                  port := port Demo.cfg;
                  s3Bucket := "another-bucket";
                  s3CfDistribution := "https://elsewhere.example" |} in
  same_for_thumbnail Demo.cfg moved
  /\ handlerUploadThumbnail moved (Demo.env sc) (Demo.request "alice" sc)
       Demo.world0
     = Demo.run_thumbnail "alice" sc.
Proof.
  intros sc moved.
  assert (Hsame : same_for_thumbnail Demo.cfg moved)
    by (repeat split; reflexivity).
  split; [exact Hsame|].
  destruct (handlers_read_their_settings Demo.cfg moved (Demo.env sc)
              (Demo.request "alice" sc) Demo.world0) as [Hthumb _].
  symmetry. exact (Hthumb Hsame).
Defined.

(** ** Generated names, from the bytes to the name and back *)






